(** * Explosive Choices: the outcome analyzer of a mines game

    A shallow embedding of [outcome_evaluation.py] and the properties of
    its three calculation steps: the success and failure rates, the
    interpolated multiplier and the expected value of a bet.

    Numbers.  Python's [int] is [Z].  Python's and NumPy's binary64
    floats are idealised as exact rationals ([Q], compared with [==]):
    rounding is left out, which is what "within floating-point
    tolerance" asks for.  The one place where NumPy produces [nan] or an
    infinity instead of raising, a division by zero inside the
    interpolation, is kept: [float] has a [NonFinite] value for it. *)

From Stdlib Require Import ZArith QArith Qfield Lia Lqa String.
From stdpp Require Import base option list gmap.

Close Scope Q_scope.
Open Scope Z_scope.

(** ** Exceptions and the two monads of the program *)

Module Py.

(** The Python exceptions that the analyzer can raise. *)
Inductive exception : Type :=
  | ZeroDivisionError
  | KeyError (key : Z)
  | ValueError.

Inductive result (A : Type) : Type :=
  | Ok (a : A)
  | Raise (e : exception).
Arguments Ok {A} a.
Arguments Raise {A} e.

Definition bind {A B} (m : result A) (k : A -> result B) : result B :=
  match m with
  | Ok a => k a
  | Raise e => Raise e
  end.

(** What the process does to the outside world, in the order it does it. *)
Inductive event : Type :=
  | ReadEncrypted (path password : string)
  | Print (lines : list (Q * Q)).

(** A computation that may raise and that appends to the trace of events. *)
Definition IO (A : Type) : Type := list event -> result A * list event.

Definition ret {A} (a : A) : IO A := fun tr => (Ok a, tr).

Definition lift {A} (m : result A) : IO A := fun tr => (m, tr).

Definition emit (e : event) : IO unit := fun tr => (Ok tt, tr ++ [e]).

Definition iobind {A B} (m : IO A) (k : A -> IO B) : IO B :=
  fun tr =>
    match m tr with
    | (Ok a, tr') => k a tr'
    | (Raise e, tr') => (Raise e, tr')
    end.

End Py.
Import Py.

Declare Scope py_scope.
Delimit Scope py_scope with py.
Notation "'let?' x := m 'in' k" := (bind m (fun x => k))
  (at level 10, x name, m at level 100, k at level 200) : py_scope.
Notation "'let!' x := m 'in' k" := (iobind m (fun x => k))
  (at level 10, x name, m at level 100, k at level 200) : py_scope.
Open Scope py_scope.

(** ** Numbers *)

(** [a / b] on two Python ints: true division, which raises on a zero
    divisor. *)
Definition int_truediv (a b : Z) : result Q :=
  if b =? 0 then Raise ZeroDivisionError else Ok (inject_Z a / inject_Z b)%Q.

(** A binary64 value as NumPy hands it over: a number, or one of [nan],
    [inf], [-inf], which the model does not tell apart. *)
Inductive float : Type :=
  | Finite (q : Q)
  | NonFinite.

Definition float_lift2 (op : Q -> Q -> Q) (a b : float) : float :=
  match a, b with
  | Finite p, Finite q => Finite (op p q)
  | _, _ => NonFinite
  end.

Definition float_add := float_lift2 Qplus.
Definition float_sub := float_lift2 Qminus.
Definition float_mul := float_lift2 Qmult.

(** NumPy's division of two finite values: a zero divisor gives [nan] or
    an infinity (and a warning), not an exception. *)
Definition np_truediv (a b : Q) : float :=
  if Qeq_bool b 0 then NonFinite else Finite (a / b)%Q.

(** [a / b] on a Python float and a Python number: raises on a zero
    divisor, also when [a] is [nan] or infinite. *)
Definition float_truediv (a : float) (b : Q) : result float :=
  if Qeq_bool b 0 then Raise ZeroDivisionError
  else Ok (float_lift2 Qdiv a (Finite b)).

(** Equality of two floats up to the representation of the rational. *)
Definition float_eq (a b : float) : Prop :=
  match a, b with
  | Finite p, Finite q => (p == q)%Q
  | NonFinite, NonFinite => True
  | _, _ => False
  end.

(** ** The analyzer object *)

(** The [insights] dictionary; its four keys are fixed, so it is a record. *)
Record Insights : Type := mkInsights {
  Success_Rate : Q;
  Failure_Rate : Q;
  Multiplier : float;
  Expected_Value : float
}.

(** The attributes of an [OutcomeAnalyzer] instance. *)
Record OutcomeAnalyzer : Type := mkSelf {
  num_bombs : Z;
  uncovered_spaces : Z;
  amount_of_squares : Z;
  bet_amount : Q;
  insights : Insights;
  covered_spaces : Z
}.

Definition set_insights (self : OutcomeAnalyzer) (ins : Insights) : OutcomeAnalyzer :=
  mkSelf (num_bombs self) (uncovered_spaces self) (amount_of_squares self)
         (bet_amount self) ins (covered_spaces self).

(** ** Success and failure rates *)

(** [functools.reduce(function, iterable, initial)], for a function that
    may raise: a left fold that stops at the first exception. *)
Fixpoint reduce {X I : Type} (function : X -> I -> result X) (iterable : list I)
    (initial : X) : result X :=
  match iterable with
  | [] => Ok initial
  | i :: rest => let? x := function initial i in reduce function rest x
  end.

(** [range(n)]: empty when [n <= 0]. *)
Definition range (n : Z) : list Z := seqZ 0 n.

Definition calculate_success_failure_rates (self : OutcomeAnalyzer)
    : result OutcomeAnalyzer :=
  let? success_rate :=
    reduce
      (fun x i =>
         let? f := int_truediv (amount_of_squares self - num_bombs self - i)
                               (amount_of_squares self - i) in
         Ok (x * f)%Q)
      (range (uncovered_spaces self))
      1%Q in
  let Success := (success_rate * 100)%Q in
  let Failure := (100 - Success)%Q in
  Ok (set_insights self
        (mkInsights Success Failure
                    (Multiplier (insights self)) (Expected_Value (insights self)))).

(** ** The sample table *)

(** One row of the decrypted table [assets/dmsc.crypt]: column [A] is the
    number of bombs, [B] the sampled number of spaces and [C] the payout
    collected there. *)
Record row : Type := mkRow {
  col_A : Z;
  col_B : Q;
  col_C : Q
}.

(** [Series.unique()]: the distinct values, in order of first appearance. *)
Fixpoint unique (values : list Z) : list Z :=
  match values with
  | [] => []
  | v :: rest => v :: filter (fun w => w <> v) (unique rest)
  end.

(** [d[k]] on a dictionary. *)
Definition dict_getitem {V : Type} (d : gmap Z V) (k : Z) : result V :=
  match d !! k with
  | Some v => Ok v
  | None => Raise (KeyError k)
  end.

(** ** Linear interpolation, as [scipy.interpolate.interp1d] does it

    The library call of the source is
    [interp1d(x, y, fill_value='extrapolate')]: [kind] is ['linear'] and
    [assume_sorted] is [False], so the samples are sorted by [x] first
    (a stable sort), and a query is answered on the segment that
    [searchsorted] and the clipping to [1 .. len - 1] select. *)
Module scipy.

Definition Qltb (a b : Q) : bool := negb (Qle_bool b a).

Fixpoint insert_by_x (p : Q * Q) (sorted : list (Q * Q)) : list (Q * Q) :=
  match sorted with
  | [] => [p]
  | h :: t => if Qle_bool (fst p) (fst h) then p :: h :: t
              else h :: insert_by_x p t
  end.

(** [x[argsort(x, kind='mergesort')]], [y[...]]: a stable sort by [x]. *)
Definition sort_by_x (points : list (Q * Q)) : list (Q * Q) :=
  foldr insert_by_x [] points.

(** [numpy.searchsorted(a, v)] (side ['left']) on a sorted array: the
    number of leading elements below [v]. *)
Fixpoint searchsorted (a : list Q) (v : Q) : Z :=
  match a with
  | [] => 0
  | h :: t => if Qltb h v then 1 + searchsorted t v else 0
  end.

(** [numpy.clip]: [minimum(maximum(i, a_min), a_max)]. *)
Definition clip (i a_min a_max : Z) : Z := Z.min (Z.max i a_min) a_max.

(** [a[i]], where a negative index counts from the end. *)
Definition item (a : list Q) (i : Z) : Q :=
  nth (Z.to_nat (if i <? 0 then Z.of_nat (length a) + i else i)) a 0%Q.

Definition call_linear (x y : list Q) (x_new : Q) : float :=
  let x_new_indices := searchsorted x x_new in
  let x_new_indices := clip x_new_indices 1 (Z.of_nat (length x) - 1) in
  let lo := x_new_indices - 1 in
  let hi := x_new_indices in
  let x_lo := item x lo in
  let x_hi := item x hi in
  let y_lo := item y lo in
  let y_hi := item y hi in
  let slope := np_truediv (y_hi - y_lo) (x_hi - x_lo) in
  float_add (float_mul slope (Finite (x_new - x_lo))) (Finite y_lo).

Definition interp1d (x y : list Q) : result (Q -> float) :=
  if negb (length x =? length y)%nat then Raise ValueError
  else if (length x =? 0)%nat then Raise ValueError
  else
    let points := sort_by_x (zip x y) in
    Ok (call_linear (fst <$> points) (snd <$> points)).

End scipy.

(** ** The multiplier, the expected value and the constructor *)

Section Analyzer.

(** The rows that [assets/dmsc.crypt] decrypts to. *)
Variable smcd_file : list row.

Definition read_encrypted (path password : string) : IO (list row) :=
  let! logged := emit (ReadEncrypted path password) in
  ret smcd_file.

Definition load_sample_data_packet (num_bombs : Z) : IO (list (Q * Q)) :=
  let! smcd := read_encrypted "assets/dmsc.crypt" "-%nPGS;GIC,2x}2I" in
  let data_packets :=
    foldl
      (fun (data_packets : gmap Z (list (Q * Q))) unique_int =>
         let temp_ednt :=
           (fun r => (col_B r, col_C r))
             <$> filter (fun r => col_A r = unique_int) smcd in
         <[unique_int := temp_ednt]> data_packets)
      ∅
      (unique (col_A <$> smcd)) in
  lift (dict_getitem data_packets num_bombs).

Definition predict_multiplier (self : OutcomeAnalyzer) : IO OutcomeAnalyzer :=
  let! data_packet := load_sample_data_packet (num_bombs self) in
  let! printed := emit (Print data_packet) in
  let! predictor :=
    lift (scipy.interp1d (fst <$> data_packet) (snd <$> data_packet)) in
  ret (set_insights self
         (mkInsights (Success_Rate (insights self)) (Failure_Rate (insights self))
                     (predictor (inject_Z (covered_spaces self)))
                     (Expected_Value (insights self)))).

Definition calculate_expected_value (self : OutcomeAnalyzer)
    : result OutcomeAnalyzer :=
  let prob_of_winning := (Success_Rate (insights self) / 100)%Q in
  let prob_of_losing := (Failure_Rate (insights self) / 100)%Q in
  let multiplier := Multiplier (insights self) in
  let bet := bet_amount self in
  let? expected_value :=
    float_truediv
      (float_add
         (float_mul (Finite prob_of_winning) (float_sub multiplier (Finite bet)))
         (Finite (prob_of_losing * - bet)%Q))
      bet in
  Ok (set_insights self
        (mkInsights (Success_Rate (insights self)) (Failure_Rate (insights self))
                    (Multiplier (insights self)) expected_value)).

(** [OutcomeAnalyzer(num_bombs, uncovered_spaces, bet_amount,
    amount_of_squares)]: the constructor runs the three steps. *)
Definition __init__ (num_bombs uncovered_spaces : Z) (bet_amount : Q)
    (amount_of_squares : Z) : IO OutcomeAnalyzer :=
  let self :=
    mkSelf num_bombs uncovered_spaces amount_of_squares bet_amount
           (mkInsights 0 0 (Finite 0) (Finite 0))
           (amount_of_squares - uncovered_spaces) in
  let! self := lift (calculate_success_failure_rates self) in
  let! self := predict_multiplier self in
  lift (calculate_expected_value self).

End Analyzer.

(** ** The application

    [calculate_and_visualize] of [streamlit_app.py] builds one analyzer
    and renders its insights; the rendering has no part in the numbers
    and is left out.  An exception ends the run of the script, not the
    process. *)
Definition Scenario : Type := Z * Z * Q * Z.

Definition calculate_and_visualize (smcd_file : list row)
    (numbr_mines spaces_uncovered : Z) (bet__amount : Q) (no_of_squares : Z)
    : IO unit :=
  let! scenario :=
    __init__ smcd_file numbr_mines spaces_uncovered bet__amount no_of_squares in
  ret tt.

(** The runs of the script in one process, one per scenario entered. *)
Fixpoint session (smcd_file : list row) (requests : list Scenario)
    (tr : list event) : list event :=
  match requests with
  | [] => tr
  | (numbr_mines, spaces_uncovered, bet__amount, no_of_squares) :: rest =>
      session smcd_file rest
        (snd (calculate_and_visualize smcd_file numbr_mines spaces_uncovered
                bet__amount no_of_squares tr))
  end.

Definition is_load (e : event) : bool :=
  match e with
  | ReadEncrypted _ _ => true
  | Print _ => false
  end.

(** How many times the table was read and decrypted. *)
Definition loads (tr : list event) : nat := length (List.filter is_load tr).

(** The scenarios whose probability loop completes, so that the analysis
    goes on to the multiplier step. *)
Definition reaches_the_table (request : Scenario) : bool :=
  let '(_, spaces_uncovered, _, no_of_squares) := request in
  negb ((0 <=? no_of_squares) && (no_of_squares <? spaces_uncovered)).

(** ** The scenarios of the specification *)

(** A valid scenario: a board of [N > 0] cells, [0 <= M < N] hazards,
    [0 <= K <= N - M] cells revealed and a positive bet. *)
Definition valid (N M K : Z) (bet : Q) : Prop :=
  0 < N /\ 0 <= M < N /\ 0 <= K <= N - M /\ (0 < bet)%Q.

(** The probability loop divides by zero exactly on these inputs. *)
Definition loop_divides_by_zero (N K : Z) : Prop := 0 <= N < K.

(** A table for the examples: three samples for five bombs, out of
    order; two for three bombs, in order; and, for seven bombs, two
    samples taken at the same number of spaces. *)
Definition sample_table : list row :=
  [ mkRow 5 24 1.2; mkRow 5 20 2.5; mkRow 3 20 1.9; mkRow 5 22 1.8;
    mkRow 3 24 1.1; mkRow 7 21 3; mkRow 7 21 4 ]%Q.

(** ** The product of the specification

    [hypergeometric N M K] is the product, over [i] from [0] to [K - 1],
    of [(N - M - i) / (N - i)]: the probability that [K] cells drawn
    without replacement among [N] avoid all [M] hazards. *)
Definition factor (N M i : Z) : Q := (inject_Z (N - M - i) / inject_Z (N - i))%Q.

Definition hypergeometric (N M K : Z) : Q :=
  foldr (fun i acc => (factor N M i * acc)%Q) 1%Q (seqZ 0 K).

(** The samples of [num_bombs] in the table: columns [B] and [C] of the
    rows whose column [A] is [num_bombs], in the order of the file. *)
Definition samples (smcd : list row) (num_bombs : Z) : list (Q * Q) :=
  (fun r => (col_B r, col_C r)) <$> filter (fun r => col_A r = num_bombs) smcd.

(** ** The interpolant of the specification *)

(** The straight line through the sample points [p1] and [p2], at [q]. *)
Definition line (p1 p2 : Q * Q) (q : Q) : Q :=
  (snd p1 + (snd p2 - snd p1) / (fst p2 - fst p1) * (q - fst p1))%Q.

(** A sequence of x-values ordered strictly. *)
Fixpoint increasing (xs : list Q) : Prop :=
  match xs with
  | a :: (b :: _) as rest => (a < b)%Q /\ increasing rest
  | _ => True
  end.

(** Sample points whose x-values are pairwise different. *)
Fixpoint distinct_x (points : list (Q * Q)) : Prop :=
  match points with
  | [] => True
  | p :: rest => (forall p', p' ∈ rest -> ~ (fst p == fst p')%Q) /\ distinct_x rest
  end.

(** What a completed analysis returns: every field of the instance. *)
Definition outcome (smcd : list row) (M K : Z) (bet : Q) (N : Z)
    (self : OutcomeAnalyzer) : Prop :=
  exists s f,
    (s == 100 * hypergeometric N M K)%Q /\ (f == 100 - s)%Q /\
    let mult :=
      scipy.call_linear (fst <$> scipy.sort_by_x (samples smcd M))
        (snd <$> scipy.sort_by_x (samples smcd M)) (inject_Z (N - K)) in
    self = mkSelf M K N bet
             (mkInsights s f mult
                (float_lift2 Qdiv
                   (float_add
                      (float_mul (Finite (s / 100)) (float_sub mult (Finite bet)))
                      (Finite (f / 100 * - bet)))
                   (Finite bet)))
             (N - K).

(** ** Counting the draws *)

(** [n!] as a rational; [Qfact n] is 1 for [n <= 0]. *)
Definition Qfact (n : Z) : Q := inject_Z (Z.of_nat (fact (Z.to_nat n))).

(** * The steps of the analysis *)

(** ** Worked examples *)

(** Three reveals on a board of 25 cells with 5 bombs:
    [100 * (20/25) * (19/24) * (18/23)]. *)
Example rates_25_5_3 :
  exists self,
    calculate_success_failure_rates
      (mkSelf 5 3 25 1 (mkInsights 0 0 (Finite 0) (Finite 0)) 22) = Ok self /\
    (Success_Rate (insights self) == 100 * (6840 # 13800))%Q /\
    (Failure_Rate (insights self) == 100 * (6960 # 13800))%Q.
Proof. eexists. split; [reflexivity|]. split; reflexivity. Qed.

(** More reveals than cells: the loop reaches [i = 25] and divides by
    [25 - 25]. *)
Example rates_25_5_26 :
  calculate_success_failure_rates
    (mkSelf 5 26 25 1 (mkInsights 0 0 (Finite 0) (Finite 0)) (-1))
  = Raise ZeroDivisionError.
Proof. reflexivity. Qed.

(** The samples for five bombs are sorted before use: 21 covered cells
    fall between the samples at 20 and 22. *)
Example predictor_between_20_and_22 :
  exists predictor,
    scipy.interp1d [24; 20; 22]%Q [1.2; 2.5; 1.8]%Q = Ok predictor /\
    float_eq (predictor 21%Q) (Finite 2.15) /\
    float_eq (predictor 4%Q) (Finite 8.1).
Proof. eexists. split; [reflexivity|]. split; reflexivity. Qed.

(** A single sample: the clipped index is 0, both ends of the segment are
    that sample and the slope is [0 / 0]. *)
Example predictor_single_sample :
  exists predictor,
    scipy.interp1d [20]%Q [2.5]%Q = Ok predictor /\
    predictor 20%Q = NonFinite.
Proof. eexists. split; reflexivity. Qed.

(** A whole analysis, with the trace of what it read and printed. *)
Example analysis_5_3_1_25 :
  exists self,
    __init__ sample_table 5 3 1 25 []
    = (Ok self,
       [ReadEncrypted "assets/dmsc.crypt" "-%nPGS;GIC,2x}2I";
        Print [(24, 1.2); (20, 2.5); (22, 1.8)]%Q]) /\
    float_eq (Multiplier (insights self)) (Finite 1.8) /\
    float_eq (Expected_Value (insights self))
             (Finite ((6840 # 13800) * (1.8 - 1) + (6960 # 13800) * - (1))).
Proof.
  eexists. split; [vm_compute; reflexivity|]. split; vm_compute; reflexivity.
Qed.

(** ** The rates step *)

Lemma reduce_factor_ok (N M : Z) (l : list Z) (x : Q) :
  N ∉ l ->
  exists y,
    reduce (fun x i => let? f := int_truediv (N - M - i) (N - i) in Ok (x * f)%Q)
           l x = Ok y /\
    (y == x * foldr (fun i acc => (factor N M i * acc)%Q) 1%Q l)%Q.
Proof.
  revert x. induction l as [|i l IH]; intros x Hnot; simpl.
  - exists x. split; [reflexivity | ring].
  - apply not_elem_of_cons in Hnot as [Hi Hl].
    unfold int_truediv at 1.
    destruct (Z.eqb_spec (N - i) 0) as [E|E]; [lia|]. simpl.
    destruct (IH (x * (inject_Z (N - M - i) / inject_Z (N - i)))%Q Hl)
      as (y & Hy & Heq).
    exists y. split; [exact Hy|]. rewrite Heq. unfold factor. ring.
Qed.

Lemma reduce_factor_raise (N M : Z) (l : list Z) (x : Q) :
  N ∈ l ->
  reduce (fun x i => let? f := int_truediv (N - M - i) (N - i) in Ok (x * f)%Q)
         l x = Raise ZeroDivisionError.
Proof.
  revert x. induction l as [|i l IH]; intros x Hin.
  - inversion Hin.
  - simpl. unfold int_truediv at 1.
    destruct (Z.eqb_spec (N - i) 0) as [E|E]; [reflexivity|]. simpl.
    apply IH. apply elem_of_cons in Hin as [->|Hin]; [lia | exact Hin].
Qed.

Lemma elem_of_range (n i : Z) : i ∈ range n <-> 0 <= i < n.
Proof. unfold range. rewrite elem_of_seqZ. lia. Qed.

(** The rates step raises exactly when the board size is among the
    indices of the loop. *)
Lemma rates_raise (self : OutcomeAnalyzer) :
  0 <= amount_of_squares self < uncovered_spaces self ->
  calculate_success_failure_rates self = Raise ZeroDivisionError.
Proof.
  intros H. unfold calculate_success_failure_rates.
  rewrite reduce_factor_raise; [reflexivity|]. apply elem_of_range. exact H.
Qed.

Lemma rates_ok (self : OutcomeAnalyzer) :
  ~ (0 <= amount_of_squares self < uncovered_spaces self) ->
  exists s f,
    calculate_success_failure_rates self
      = Ok (set_insights self
              (mkInsights s f (Multiplier (insights self))
                          (Expected_Value (insights self)))) /\
    (s == 100 * hypergeometric (amount_of_squares self) (num_bombs self)
                               (uncovered_spaces self))%Q /\
    (f == 100 - s)%Q.
Proof.
  intros H. unfold calculate_success_failure_rates.
  destruct (reduce_factor_ok (amount_of_squares self) (num_bombs self)
              (range (uncovered_spaces self)) 1%Q) as (y & Hy & Heq).
  { rewrite elem_of_range. exact H. }
  rewrite Hy. simpl. eexists _, _. split; [reflexivity|]. split.
  - rewrite Heq. unfold hypergeometric, range. ring.
  - reflexivity.
Qed.

(** ** The table look-up *)

Lemma elem_of_unique (v : Z) (values : list Z) : v ∈ unique values <-> v ∈ values.
Proof.
  induction values as [|w rest IH]; simpl; [reflexivity|].
  rewrite !elem_of_cons, list_elem_of_filter, IH.
  destruct (decide (v = w)); intuition congruence.
Qed.

Lemma lookup_foldl_insert {V : Type} (g : Z -> V) (keys : list Z)
    (d : gmap Z V) (k : Z) :
  foldl (fun acc u => <[u := g u]> acc) d keys !! k
  = if decide (k ∈ keys) then Some (g k) else d !! k.
Proof.
  revert d. induction keys as [|u keys IH]; intros d; simpl.
  - destruct (decide (k ∈ [])) as [H|_]; [inversion H | reflexivity].
  - rewrite IH. destruct (decide (k ∈ keys)) as [Hin|Hnin].
    + rewrite decide_True by (right; exact Hin). reflexivity.
    + destruct (decide (k = u)) as [->|Hne].
      * rewrite lookup_insert_eq, decide_True by left. reflexivity.
      * rewrite lookup_insert_ne by congruence.
        rewrite decide_False; [reflexivity|].
        rewrite elem_of_cons. intuition.
Qed.

Lemma load_sample_data_packet_spec (smcd : list row) (M : Z) (tr : list event) :
  load_sample_data_packet smcd M tr
  = (if decide (M ∈ col_A <$> smcd) then Ok (samples smcd M)
     else Raise (KeyError M),
     tr ++ [ReadEncrypted "assets/dmsc.crypt" "-%nPGS;GIC,2x}2I"]).
Proof.
  unfold load_sample_data_packet, read_encrypted, iobind, emit, ret, lift,
    dict_getitem.
  rewrite (lookup_foldl_insert
             (fun u => (fun r => (col_B r, col_C r))
                         <$> filter (fun r => col_A r = u) smcd)).
  destruct (decide (M ∈ unique (col_A <$> smcd))) as [H|H];
    rewrite elem_of_unique in H.
  - rewrite decide_True by exact H. reflexivity.
  - rewrite decide_False by exact H. rewrite lookup_empty. reflexivity.
Qed.

Lemma samples_nonempty (smcd : list row) (M : Z) :
  M ∈ col_A <$> smcd <-> samples smcd M <> [].
Proof.
  unfold samples. rewrite list_elem_of_fmap. split.
  - intros (r & -> & Hr) E. apply fmap_nil_inv in E.
    assert (Hin : r ∈ filter (fun r' => col_A r' = col_A r) smcd)
      by (apply list_elem_of_filter; split; [reflexivity | exact Hr]).
    rewrite E in Hin. inversion Hin.
  - intros Hne. destruct (filter (fun r => col_A r = M) smcd) as [|r l] eqn:E;
      [contradiction|].
    assert (Hin : r ∈ filter (fun r => col_A r = M) smcd) by (rewrite E; left).
    apply list_elem_of_filter in Hin as [HA Hin]. exists r. split; [symmetry|]; assumption.
Qed.

(** ** Interpolation on an increasing sequence *)

Section Interpolation.
Import scipy.
Local Open Scope Q_scope.

Lemma Qltb_lt (a b : Q) : Qltb a b = true <-> a < b.
Proof.
  unfold Qltb. rewrite negb_true_iff, <- not_true_iff_false, Qle_bool_iff.
  split; [apply Qnot_le_lt | apply Qlt_not_le].
Qed.

Lemma increasing_tail (a : Q) (t : list Q) : increasing (a :: t) -> increasing t.
Proof. destruct t; simpl; tauto. Qed.

Lemma increasing_adjacent (xs : list Q) (i : nat) :
  increasing xs -> (S i < length xs)%nat -> nth i xs 0 < nth (S i) xs 0.
Proof.
  revert i. induction xs as [|a t IH]; intros i Hinc Hlen; [simpl in Hlen; lia|].
  destruct i as [|i].
  - destruct t as [|b t']; simpl in *; [lia | tauto].
  - change (nth i t 0 < nth (S i) t 0). apply IH.
    + exact (increasing_tail _ _ Hinc).
    + simpl in Hlen. lia.
Qed.

Lemma increasing_nth (xs : list Q) (i j : nat) :
  increasing xs -> (i < j)%nat -> (j < length xs)%nat -> nth i xs 0 < nth j xs 0.
Proof.
  intros Hinc. induction j as [|j IH]; intros Hij Hj; [lia|].
  destruct (decide (i = j)) as [->|Hne].
  - apply increasing_adjacent; assumption.
  - apply Qlt_trans with (nth j xs 0).
    + apply IH; lia.
    + apply increasing_adjacent; assumption.
Qed.

Lemma searchsorted_range (a : list Q) (v : Q) :
  (0 <= searchsorted a v <= Z.of_nat (length a))%Z.
Proof.
  induction a as [|h t IH]; simpl; [lia|]. destruct (Qltb h v); lia.
Qed.

Lemma searchsorted_below (a : list Q) (v : Q) (i : nat) :
  (Z.of_nat i < searchsorted a v)%Z -> nth i a 0 < v.
Proof.
  revert i. induction a as [|h t IH]; intros i Hi; simpl in Hi; [lia|].
  destruct (Qltb h v) eqn:E; [|lia].
  destruct i as [|i]; simpl.
  - apply Qltb_lt. exact E.
  - apply IH. lia.
Qed.

Lemma searchsorted_at (a : list Q) (v : Q) :
  (searchsorted a v < Z.of_nat (length a))%Z ->
  v <= nth (Z.to_nat (searchsorted a v)) a 0.
Proof.
  induction a as [|h t IH]; simpl; [lia|].
  destruct (Qltb h v) eqn:E; intros Hlt.
  - pose proof (searchsorted_range t v) as Hr.
    replace (Z.to_nat (1 + searchsorted t v)) with (S (Z.to_nat (searchsorted t v)))
      by lia.
    apply IH. lia.
  - simpl. apply Qnot_lt_le. intros Hlt'. apply Qltb_lt in Hlt'. congruence.
Qed.

(** When the clipped index is [j + 1], the answer is computed on the
    segment from sample [j] to sample [j + 1]. *)
Lemma call_linear_on_segment (xs ys : list Q) (q : Q) (j : nat) :
  clip (searchsorted xs q) 1 (Z.of_nat (length xs) - 1) = Z.of_nat (S j) ->
  nth j xs 0 < nth (S j) xs 0 ->
  call_linear xs ys q
  = Finite ((nth (S j) ys 0 - nth j ys 0) / (nth (S j) xs 0 - nth j xs 0)
            * (q - nth j xs 0) + nth j ys 0).
Proof.
  intros Hclip Hlt. unfold call_linear. rewrite Hclip. unfold item.
  replace (Z.of_nat (S j) - 1 <? 0)%Z with false by (symmetry; apply Z.ltb_ge; lia).
  replace (Z.of_nat (S j) <? 0)%Z with false by (symmetry; apply Z.ltb_ge; lia).
  replace (Z.to_nat (Z.of_nat (S j) - 1)) with j by lia.
  rewrite Nat2Z.id. unfold np_truediv.
  destruct (Qeq_bool (nth (S j) xs 0 - nth j xs 0) 0) eqn:E.
  - apply Qeq_bool_iff in E. lra.
  - reflexivity.
Qed.

Lemma on_line (x1 y1 x2 y2 q : Q) :
  (y2 - y1) / (x2 - x1) * (q - x1) + y1 == line (x1, y1) (x2, y2) q.
Proof. unfold line, Qdiv. simpl. ring. Qed.

Lemma interp_between (xs ys : list Q) (q : Q) (j : nat) :
  increasing xs -> (S j < length xs)%nat ->
  nth j xs 0 <= q <= nth (S j) xs 0 ->
  exists m, call_linear xs ys q = Finite m /\
            m == line (nth j xs 0, nth j ys 0) (nth (S j) xs 0, nth (S j) ys 0) q.
Proof.
  intros Hinc Hj [Hlo Hhi].
  pose proof (searchsorted_range xs q) as Hr.
  pose proof (increasing_adjacent xs j Hinc Hj) as Hseg.
  assert (Hge : (Z.of_nat j <= searchsorted xs q)%Z).
  { apply Z.le_ngt. intros Hlt.
    pose proof (searchsorted_at xs q ltac:(lia)) as Hat.
    pose proof (increasing_nth xs (Z.to_nat (searchsorted xs q)) j Hinc
                  ltac:(lia) ltac:(lia)). lra. }
  assert (Hle : (searchsorted xs q <= Z.of_nat (S j))%Z).
  { apply Z.le_ngt. intros Hgt.
    pose proof (searchsorted_below xs q (S j) ltac:(lia)). lra. }
  destruct (decide (searchsorted xs q = Z.of_nat (S j))) as [E|E].
  - eexists. split.
    + apply (call_linear_on_segment xs ys q j); [unfold clip; lia | exact Hseg].
    + apply on_line.
  - assert (E' : searchsorted xs q = Z.of_nat j) by lia.
    pose proof (searchsorted_at xs q ltac:(lia)) as Hat.
    rewrite E', Nat2Z.id in Hat.
    assert (Hq : q == nth j xs 0) by lra.
    destruct j as [|j].
    + eexists. split.
      * apply (call_linear_on_segment xs ys q 0%nat); [unfold clip; lia | exact Hseg].
      * apply on_line.
    + pose proof (increasing_adjacent xs j Hinc ltac:(lia)) as Hprev.
      eexists. split.
      * apply (call_linear_on_segment xs ys q j); [unfold clip; lia | exact Hprev].
      * unfold line. simpl. rewrite Hq. field. split; intros Hz; lra.
Qed.

Lemma interp_below (xs ys : list Q) (q : Q) :
  increasing xs -> (2 <= length xs)%nat -> q < nth 0 xs 0 ->
  exists m, call_linear xs ys q = Finite m /\
            m == line (nth 0 xs 0, nth 0 ys 0) (nth 1 xs 0, nth 1 ys 0) q.
Proof.
  intros Hinc Hlen Hq.
  pose proof (searchsorted_range xs q) as Hr.
  assert (E : searchsorted xs q = 0%Z).
  { destruct (decide (searchsorted xs q = 0%Z)) as [E|E]; [exact E|].
    pose proof (searchsorted_below xs q 0 ltac:(lia)). lra. }
  eexists. split.
  - apply (call_linear_on_segment xs ys q 0%nat); [unfold clip; lia|].
    apply increasing_adjacent; [exact Hinc | lia].
  - apply on_line.
Qed.

Lemma interp_above (xs ys : list Q) (q : Q) :
  increasing xs -> (2 <= length xs)%nat -> nth (length xs - 1) xs 0 < q ->
  exists m, call_linear xs ys q = Finite m /\
            m == line (nth (length xs - 2) xs 0, nth (length xs - 2) ys 0)
                      (nth (length xs - 1) xs 0, nth (length xs - 1) ys 0) q.
Proof.
  intros Hinc Hlen Hq.
  pose proof (searchsorted_range xs q) as Hr.
  assert (E : searchsorted xs q = Z.of_nat (length xs)).
  { destruct (decide (searchsorted xs q = Z.of_nat (length xs))) as [E|E];
      [exact E|].
    pose proof (searchsorted_at xs q ltac:(lia)) as Hat.
    destruct (decide (Z.to_nat (searchsorted xs q) = (length xs - 1)%nat)) as [E1|E1].
    - rewrite E1 in Hat. lra.
    - pose proof (increasing_nth xs (Z.to_nat (searchsorted xs q))
                    (length xs - 1) Hinc ltac:(lia) ltac:(lia)). lra. }
  replace (length xs - 1)%nat with (S (length xs - 2)) by lia.
  eexists. split.
  - apply (call_linear_on_segment xs ys q (length xs - 2)); [unfold clip; lia|].
    apply increasing_adjacent; [exact Hinc | lia].
  - apply on_line.
Qed.

End Interpolation.

(** ** Sorting the samples *)

Section Sorting.
Import scipy.
Local Open Scope Q_scope.

Lemma increasing_cons (a : Q) (l : list Q) :
  increasing (a :: l) <-> Forall (fun b => a < b) l /\ increasing l.
Proof.
  revert a. induction l as [|b t IH]; intros a.
  - simpl. split; [intros _; split; [constructor | exact I] | tauto].
  - change (increasing (a :: b :: t)) with (a < b /\ increasing (b :: t)). split.
    + intros [Hab Hbt]. split; [|exact Hbt].
      constructor; [exact Hab|].
      apply IH in Hbt as [Hall _].
      eapply Forall_impl; [exact Hall|]. simpl. intros c Hbc. lra.
    + intros [Hall Hbt]. split; [|exact Hbt]. inversion Hall; assumption.
Qed.

Lemma elem_of_insert_by_x (p p' : Q * Q) (l : list (Q * Q)) :
  p' ∈ insert_by_x p l <-> p' = p \/ p' ∈ l.
Proof.
  induction l as [|h t IH]; simpl.
  - rewrite list_elem_of_singleton, elem_of_nil. tauto.
  - destruct (Qle_bool (fst p) (fst h)).
    + rewrite elem_of_cons. reflexivity.
    + rewrite !elem_of_cons, IH. tauto.
Qed.

Lemma elem_of_sort_by_x (p : Q * Q) (l : list (Q * Q)) :
  p ∈ sort_by_x l <-> p ∈ l.
Proof.
  unfold sort_by_x. induction l as [|h t IH]; simpl; [reflexivity|].
  rewrite elem_of_insert_by_x, elem_of_cons, IH. reflexivity.
Qed.

Lemma length_insert_by_x (p : Q * Q) (l : list (Q * Q)) :
  length (insert_by_x p l) = S (length l).
Proof.
  induction l as [|h t IH]; simpl; [reflexivity|].
  destruct (Qle_bool (fst p) (fst h)); simpl; [reflexivity | rewrite IH; reflexivity].
Qed.

Lemma length_sort_by_x (l : list (Q * Q)) : length (sort_by_x l) = length l.
Proof.
  unfold sort_by_x. induction l as [|h t IH]; simpl; [reflexivity|].
  rewrite length_insert_by_x, IH. reflexivity.
Qed.

(** Samples that are already ordered are left as they are. *)
Lemma sort_by_x_increasing (l : list (Q * Q)) :
  increasing (fst <$> l) -> sort_by_x l = l.
Proof.
  unfold sort_by_x. induction l as [|h t IH]; intros Hinc; [reflexivity|].
  simpl. rewrite IH by (exact (increasing_tail _ _ Hinc)).
  destruct t as [|h' t']; [reflexivity|].
  simpl in Hinc. destruct Hinc as [Hlt _]. simpl.
  destruct (Qle_bool (fst h) (fst h')) eqn:E; [reflexivity|].
  exfalso. apply not_true_iff_false in E. apply E, Qle_bool_iff. lra.
Qed.

Lemma insert_by_x_increasing (p : Q * Q) (l : list (Q * Q)) :
  increasing (fst <$> l) ->
  (forall p', p' ∈ l -> ~ fst p == fst p') ->
  increasing (fst <$> insert_by_x p l).
Proof.
  induction l as [|h t IH]; intros Hinc Hne; [exact I|].
  simpl. destruct (Qle_bool (fst p) (fst h)) eqn:E.
  - change (increasing (fst p :: (fst <$> (h :: t)))).
    apply increasing_cons. split; [|exact Hinc].
    apply Qle_bool_iff in E.
    assert (Hph : fst p < fst h).
    { specialize (Hne h ltac:(left)). lra. }
    change (Forall (fun b => fst p < b) (fst h :: (fst <$> t))).
    constructor; [exact Hph|].
    change (increasing (fst h :: (fst <$> t))) in Hinc.
    apply increasing_cons in Hinc as [Hall _].
    eapply Forall_impl; [exact Hall|]. simpl. intros c Hc. lra.
  - change (increasing (fst h :: (fst <$> insert_by_x p t))).
    change (increasing (fst h :: (fst <$> t))) in Hinc.
    apply increasing_cons in Hinc as [Hall Ht].
    apply increasing_cons. split.
    + apply Forall_forall. intros x Hx.
      apply list_elem_of_fmap in Hx as (p' & -> & Hp').
      apply elem_of_insert_by_x in Hp' as [->|Hp'].
      * apply not_true_iff_false in E. apply Qnot_le_lt. intros Hle.
        apply E, Qle_bool_iff. exact Hle.
      * rewrite Forall_forall in Hall. apply Hall.
        apply list_elem_of_fmap. exists p'. split; [reflexivity | exact Hp'].
    + apply IH; [exact Ht|]. intros p' Hp'. apply Hne. right. exact Hp'.
Qed.

(** Sorting samples with pairwise different x-values orders them strictly. *)
Lemma sort_by_x_distinct (l : list (Q * Q)) :
  distinct_x l -> increasing (fst <$> sort_by_x l).
Proof.
  induction l as [|h t IH]; intros Hd; [exact I|].
  destruct Hd as [Hne Hd]. change (sort_by_x (h :: t)) with (insert_by_x h (sort_by_x t)).
  apply insert_by_x_increasing; [apply IH; exact Hd|].
  intros p' Hp'. apply Hne. apply elem_of_sort_by_x. exact Hp'.
Qed.

End Sorting.

(** ** The three steps and the constructor *)

Lemma interp1d_samples (pts : list (Q * Q)) :
  pts <> [] ->
  scipy.interp1d (fst <$> pts) (snd <$> pts)
  = Ok (scipy.call_linear (fst <$> scipy.sort_by_x pts)
                          (snd <$> scipy.sort_by_x pts)).
Proof.
  intros Hne. unfold scipy.interp1d.
  rewrite !length_fmap, Nat.eqb_refl. simpl.
  destruct pts as [|p pts]; [contradiction|]. simpl length. simpl Nat.eqb.
  cbv iota. rewrite zip_fst_snd. reflexivity.
Qed.

Lemma predict_multiplier_ok (smcd : list row) (self : OutcomeAnalyzer)
    (tr : list event) :
  num_bombs self ∈ col_A <$> smcd ->
  let pts := samples smcd (num_bombs self) in
  predict_multiplier smcd self tr
  = (Ok (set_insights self
           (mkInsights (Success_Rate (insights self)) (Failure_Rate (insights self))
              (scipy.call_linear (fst <$> scipy.sort_by_x pts)
                 (snd <$> scipy.sort_by_x pts) (inject_Z (covered_spaces self)))
              (Expected_Value (insights self)))),
     tr ++ [ReadEncrypted "assets/dmsc.crypt" "-%nPGS;GIC,2x}2I"; Print pts]).
Proof.
  intros Hin pts. unfold predict_multiplier, iobind.
  rewrite load_sample_data_packet_spec, decide_True by exact Hin.
  unfold emit, lift.
  rewrite interp1d_samples by (apply samples_nonempty; exact Hin).
  unfold ret. rewrite <- app_assoc. reflexivity.
Qed.

Lemma predict_multiplier_raise (smcd : list row) (self : OutcomeAnalyzer)
    (tr : list event) :
  num_bombs self ∉ col_A <$> smcd ->
  predict_multiplier smcd self tr
  = (Raise (KeyError (num_bombs self)),
     tr ++ [ReadEncrypted "assets/dmsc.crypt" "-%nPGS;GIC,2x}2I"]).
Proof.
  intros Hin. unfold predict_multiplier, iobind.
  rewrite load_sample_data_packet_spec, decide_False by exact Hin. reflexivity.
Qed.

Lemma valid_loop (N M K : Z) (bet : Q) :
  valid N M K bet -> ~ loop_divides_by_zero N K.
Proof. unfold valid, loop_divides_by_zero. lia. Qed.

Lemma init_raise_loop (smcd : list row) (M K : Z) (bet : Q) (N : Z)
    (tr : list event) :
  loop_divides_by_zero N K ->
  __init__ smcd M K bet N tr = (Raise ZeroDivisionError, tr).
Proof.
  intros H. unfold __init__, iobind, lift. rewrite rates_raise by exact H.
  reflexivity.
Qed.

Lemma init_raise_key (smcd : list row) (M K : Z) (bet : Q) (N : Z)
    (tr : list event) :
  ~ loop_divides_by_zero N K -> M ∉ col_A <$> smcd ->
  __init__ smcd M K bet N tr
  = (Raise (KeyError M),
     tr ++ [ReadEncrypted "assets/dmsc.crypt" "-%nPGS;GIC,2x}2I"]).
Proof.
  intros Hloop Hkey. unfold __init__, iobind, lift.
  edestruct rates_ok as (s & f & -> & _); [exact Hloop|].
  rewrite predict_multiplier_raise by exact Hkey. reflexivity.
Qed.

Lemma init_raise_bet (smcd : list row) (M K : Z) (bet : Q) (N : Z)
    (tr : list event) :
  ~ loop_divides_by_zero N K -> M ∈ col_A <$> smcd -> (bet == 0)%Q ->
  __init__ smcd M K bet N tr
  = (Raise ZeroDivisionError,
     tr ++ [ReadEncrypted "assets/dmsc.crypt" "-%nPGS;GIC,2x}2I";
            Print (samples smcd M)]).
Proof.
  intros Hloop Hkey Hbet. unfold __init__, iobind, lift.
  edestruct rates_ok as (s & f & -> & _); [exact Hloop|].
  rewrite predict_multiplier_ok by exact Hkey.
  unfold calculate_expected_value, float_truediv. simpl.
  apply Qeq_bool_iff in Hbet. rewrite Hbet. reflexivity.
Qed.

Lemma init_ok (smcd : list row) (M K : Z) (bet : Q) (N : Z) (tr : list event) :
  ~ loop_divides_by_zero N K -> M ∈ col_A <$> smcd -> ~ (bet == 0)%Q ->
  exists self,
    __init__ smcd M K bet N tr
    = (Ok self,
       tr ++ [ReadEncrypted "assets/dmsc.crypt" "-%nPGS;GIC,2x}2I";
              Print (samples smcd M)]) /\
    outcome smcd M K bet N self.
Proof.
  intros Hloop Hkey Hbet. unfold __init__, iobind, lift.
  edestruct rates_ok as (s & f & -> & Hs & Hf); [exact Hloop|].
  rewrite predict_multiplier_ok by exact Hkey.
  unfold calculate_expected_value, float_truediv. simpl.
  destruct (Qeq_bool bet 0) eqn:E; [apply Qeq_bool_iff in E; contradiction|].
  eexists. split; [reflexivity|]. exists s, f. simpl in Hs, Hf.
  split; [exact Hs|]. split; [exact Hf|]. reflexivity.
Qed.

(** A returned instance is always one of [init_ok]. *)
Lemma init_inv (smcd : list row) (M K : Z) (bet : Q) (N : Z) (tr : list event)
    (self : OutcomeAnalyzer) :
  fst (__init__ smcd M K bet N tr) = Ok self ->
  ~ loop_divides_by_zero N K /\ (M ∈ col_A <$> smcd) /\ ~ (bet == 0)%Q /\
  outcome smcd M K bet N self.
Proof.
  intros H.
  destruct (decide (loop_divides_by_zero N K)) as [Hl|Hl].
  { rewrite init_raise_loop in H by exact Hl. discriminate. }
  destruct (decide (M ∈ col_A <$> smcd)) as [Hk|Hk].
  2: { rewrite init_raise_key in H by assumption. discriminate. }
  destruct (Qeq_dec bet 0) as [Hb|Hb].
  { rewrite init_raise_bet in H by assumption. discriminate. }
  destruct (init_ok smcd M K bet N tr Hl Hk Hb) as (self' & E & Hout).
  rewrite E in H. simpl in H. injection H as <-. auto.
Qed.

(** The later steps leave the two rates as the first step computed them. *)
Lemma init_rates (smcd : list row) (M K : Z) (bet : Q) (N : Z) (tr : list event)
    (self : OutcomeAnalyzer) :
  fst (__init__ smcd M K bet N tr) = Ok self ->
  exists self1,
    calculate_success_failure_rates
      (mkSelf M K N bet (mkInsights 0 0 (Finite 0) (Finite 0)) (N - K)) = Ok self1 /\
    Success_Rate (insights self) = Success_Rate (insights self1) /\
    Failure_Rate (insights self) = Failure_Rate (insights self1).
Proof.
  unfold __init__, iobind, lift.
  destruct (calculate_success_failure_rates _) as [self1|e] eqn:E1;
    [|discriminate].
  assert (HM : num_bombs self1 = M).
  { unfold calculate_success_failure_rates in E1.
    destruct (reduce _ _ _); simpl in E1; [|discriminate].
    injection E1 as <-. reflexivity. }
  destruct (decide (M ∈ col_A <$> smcd)) as [Hk|Hk].
  - rewrite predict_multiplier_ok by (rewrite HM; exact Hk).
    unfold calculate_expected_value. destruct (float_truediv _ _); simpl;
      [|discriminate].
    intros [= <-]. exists self1. auto.
  - rewrite predict_multiplier_raise by (rewrite HM; exact Hk). discriminate.
Qed.

Lemma rates_same_board (M K N : Z) (bet1 bet2 : Q) (ins1 ins2 : Insights)
    (c1 c2 : Z) (self1 self2 : OutcomeAnalyzer) :
  calculate_success_failure_rates (mkSelf M K N bet1 ins1 c1) = Ok self1 ->
  calculate_success_failure_rates (mkSelf M K N bet2 ins2 c2) = Ok self2 ->
  Success_Rate (insights self1) = Success_Rate (insights self2) /\
  Failure_Rate (insights self1) = Failure_Rate (insights self2).
Proof.
  unfold calculate_success_failure_rates. simpl.
  destruct (reduce _ _ _); simpl; [|discriminate].
  intros [= <-] [= <-]. split; reflexivity.
Qed.

(** ** The reads of the table *)

Lemma loads_app (tr1 tr2 : list event) : loads (tr1 ++ tr2) = (loads tr1 + loads tr2)%nat.
Proof. unfold loads. rewrite List.filter_app, length_app. reflexivity. Qed.

Lemma init_loads (smcd : list row) (M K : Z) (bet : Q) (N : Z) (tr : list event) :
  loads (snd (__init__ smcd M K bet N tr))
  = (loads tr + if decide (loop_divides_by_zero N K) then 0 else 1)%nat.
Proof.
  destruct (decide (loop_divides_by_zero N K)) as [Hl|Hl].
  { rewrite init_raise_loop by exact Hl. simpl. lia. }
  destruct (decide (M ∈ col_A <$> smcd)) as [Hk|Hk].
  2: { rewrite init_raise_key by assumption. simpl. rewrite loads_app. reflexivity. }
  destruct (Qeq_dec bet 0) as [Hb|Hb].
  { rewrite init_raise_bet by assumption. simpl. rewrite loads_app. reflexivity. }
  destruct (init_ok smcd M K bet N tr Hl Hk Hb) as (self' & -> & _).
  simpl. rewrite loads_app. reflexivity.
Qed.

Lemma calculate_and_visualize_trace (smcd : list row) (M K : Z) (bet : Q) (N : Z)
    (tr : list event) :
  snd (calculate_and_visualize smcd M K bet N tr) = snd (__init__ smcd M K bet N tr).
Proof.
  unfold calculate_and_visualize, iobind.
  destruct (__init__ smcd M K bet N tr) as [[self|e] tr']; reflexivity.
Qed.

(** ** Samples by position *)

Lemma nth_fst (pts : list (Q * Q)) (j : nat) (p : Q * Q) :
  pts !! j = Some p -> nth j (fst <$> pts) 0%Q = fst p.
Proof.
  intros H. apply nth_lookup_Some. rewrite list_lookup_fmap, H. reflexivity.
Qed.

Lemma nth_snd (pts : list (Q * Q)) (j : nat) (p : Q * Q) :
  pts !! j = Some p -> nth j (snd <$> pts) 0%Q = snd p.
Proof.
  intros H. apply nth_lookup_Some. rewrite list_lookup_fmap, H. reflexivity.
Qed.

(** * The properties of the specification *)

(** ** The rates *)

(** C1: for a board of [N] cells with [M] hazards, [0 <= M < N], and
    [K] reveals, [0 <= K <= N - M], the rates step succeeds, its success
    rate is 100 times the product over [i] from [0] to [K - 1] of
    [(N - M - i) / (N - i)], and its failure rate is 100 minus the success
    rate; for [K = 0] the rates are 100 and 0. *)
Theorem C1_success_rate_is_the_product (self : OutcomeAnalyzer) :
  0 <= num_bombs self < amount_of_squares self ->
  0 <= uncovered_spaces self <= amount_of_squares self - num_bombs self ->
  exists self',
    calculate_success_failure_rates self = Ok self' /\
    (Success_Rate (insights self')
     == 100 * hypergeometric (amount_of_squares self) (num_bombs self)
                             (uncovered_spaces self))%Q /\
    (Failure_Rate (insights self') == 100 - Success_Rate (insights self'))%Q /\
    (uncovered_spaces self = 0 ->
     (Success_Rate (insights self') == 100)%Q /\
     (Failure_Rate (insights self') == 0)%Q).
Proof.
  intros HM HK.
  destruct (rates_ok self) as (s & f & E & Hs & Hf); [lia|].
  eexists. split; [exact E|]. simpl.
  split; [exact Hs|]. split; [exact Hf|].
  intros HK0. rewrite HK0 in Hs.
  change (hypergeometric (amount_of_squares self) (num_bombs self) 0) with 1%Q in Hs.
  split; lra.
Qed.

Lemma C1_witness :
  exists self',
    calculate_success_failure_rates
      (mkSelf 5 20 25 1 (mkInsights 0 0 (Finite 0) (Finite 0)) 5) = Ok self' /\
    (Success_Rate (insights self') == 100 * hypergeometric 25 5 20)%Q /\
    (Failure_Rate (insights self') == 100 - Success_Rate (insights self'))%Q /\
    (20 = 0 -> (Success_Rate (insights self') == 100)%Q /\
               (Failure_Rate (insights self') == 0)%Q).
Proof.
  apply (C1_success_rate_is_the_product
           (mkSelf 5 20 25 1 (mkInsights 0 0 (Finite 0) (Finite 0)) 5));
    simpl; lia.
Defined.

(** C6: for a valid scenario, the success rate and the failure rate of
    the returned instance add up to 100, and an instance is returned as
    soon as the table has samples for the number of bombs. *)
Theorem C6_rates_add_up_to_100 (smcd : list row) (M K : Z) (bet : Q) (N : Z)
    (tr : list event) :
  valid N M K bet ->
  (M ∈ col_A <$> smcd -> exists self, fst (__init__ smcd M K bet N tr) = Ok self) /\
  (forall self,
     fst (__init__ smcd M K bet N tr) = Ok self ->
     (Success_Rate (insights self) + Failure_Rate (insights self) == 100)%Q).
Proof.
  intros Hv. split.
  - intros Hk.
    destruct (init_ok smcd M K bet N tr) as (self & E & _);
      [exact (valid_loop _ _ _ _ Hv) | exact Hk | |].
    + destruct Hv as (_ & _ & _ & Hb). lra.
    + exists self. rewrite E. reflexivity.
  - intros self H. apply init_inv in H as (_ & _ & _ & s & f & Hs & Hf & ->).
    simpl. lra.
Qed.

(** C4: for a valid scenario, the expected value of the returned instance
    is [((successRate / 100) * (multiplier - bet)
         + (failureRate / 100) * (- bet)) / bet], a fraction of the bet;
    when the multiplier is not a finite number, neither is the expected
    value. *)
Theorem C4_expected_value_formula (smcd : list row) (M K : Z) (bet : Q) (N : Z)
    (tr : list event) :
  valid N M K bet ->
  (M ∈ col_A <$> smcd -> exists self, fst (__init__ smcd M K bet N tr) = Ok self) /\
  (forall self,
     fst (__init__ smcd M K bet N tr) = Ok self ->
     match Multiplier (insights self) with
     | Finite multiplier =>
         exists expected_value,
           Expected_Value (insights self) = Finite expected_value /\
           (expected_value
            == (Success_Rate (insights self) / 100 * (multiplier - bet)
                + Failure_Rate (insights self) / 100 * - bet) / bet)%Q
     | NonFinite => Expected_Value (insights self) = NonFinite
     end).
Proof.
  intros Hv. split.
  - intros Hk.
    destruct (init_ok smcd M K bet N tr) as (self & E & _);
      [exact (valid_loop _ _ _ _ Hv) | exact Hk | |].
    + destruct Hv as (_ & _ & _ & Hb). lra.
    + exists self. rewrite E. reflexivity.
  - intros self H. apply init_inv in H as (_ & _ & _ & s & f & Hs & Hf & ->).
    simpl. destruct (scipy.call_linear _ _ _) as [m|]; simpl.
    + eexists. split; reflexivity.
    + reflexivity.
Qed.

(** C10: two analyses of the same board, number of bombs and number of
    reveals return the same success rate and the same failure rate,
    whatever the two bets and the two tables are. *)
Theorem C10_rates_ignore_bet_and_table (smcd1 smcd2 : list row) (M K N : Z)
    (bet1 bet2 : Q) (tr1 tr2 : list event) (self1 self2 : OutcomeAnalyzer) :
  fst (__init__ smcd1 M K bet1 N tr1) = Ok self1 ->
  fst (__init__ smcd2 M K bet2 N tr2) = Ok self2 ->
  Success_Rate (insights self1) = Success_Rate (insights self2) /\
  Failure_Rate (insights self1) = Failure_Rate (insights self2).
Proof.
  intros H1 H2.
  apply init_rates in H1 as (r1 & E1 & -> & ->).
  apply init_rates in H2 as (r2 & E2 & -> & ->).
  exact (rates_same_board _ _ _ _ _ _ _ _ _ _ _ E1 E2).
Qed.

Lemma C6_witness :
  valid 25 5 3 1 /\
  (5 ∈ col_A <$> sample_table ->
   exists self, fst (__init__ sample_table 5 3 1 25 []) = Ok self) /\
  (forall self,
     fst (__init__ sample_table 5 3 1 25 []) = Ok self ->
     (Success_Rate (insights self) + Failure_Rate (insights self) == 100)%Q).
Proof.
  assert (Hv : valid 25 5 3 1) by (unfold valid; repeat split; try lia; reflexivity).
  split; [exact Hv|].
  exact (C6_rates_add_up_to_100 sample_table 5 3 1 25 [] Hv).
Defined.

Lemma C4_witness :
  valid 25 5 3 2 /\
  exists self expected_value,
    fst (__init__ sample_table 5 3 2 25 []) = Ok self /\
    Multiplier (insights self) = Finite (3600 # 2000) /\
    Expected_Value (insights self) = Finite expected_value /\
    (expected_value
     == (Success_Rate (insights self) / 100 * ((3600 # 2000) - 2)
         + Failure_Rate (insights self) / 100 * - (2)) / 2)%Q.
Proof.
  assert (Hv : valid 25 5 3 2) by (unfold valid; repeat split; try lia; reflexivity).
  split; [exact Hv|].
  destruct (C4_expected_value_formula sample_table 5 3 2 25 [] Hv) as [_ Hall].
  eexists.
  assert (E : fst (__init__ sample_table 5 3 2 25 []) = Ok _)
    by (vm_compute; reflexivity).
  specialize (Hall _ E). simpl in Hall. destruct Hall as (ev & Hev & Heq).
  exists ev. split; [exact E|]. split; [reflexivity|]. split; [exact Hev | exact Heq].
Defined.

Lemma C10_witness :
  exists self1 self2,
    fst (__init__ sample_table 5 3 1 25 []) = Ok self1 /\
    fst (__init__ (List.tl sample_table) 5 3 2 25 []) = Ok self2 /\
    Success_Rate (insights self1) = Success_Rate (insights self2) /\
    Failure_Rate (insights self1) = Failure_Rate (insights self2).
Proof.
  eexists. eexists.
  assert (E1 : fst (__init__ sample_table 5 3 1 25 []) = Ok _)
    by (vm_compute; reflexivity).
  assert (E2 : fst (__init__ (List.tl sample_table) 5 3 2 25 []) = Ok _)
    by (vm_compute; reflexivity).
  split; [exact E1|]. split; [exact E2|].
  exact (C10_rates_ignore_bet_and_table _ _ _ _ _ _ _ _ _ _ _ E1 E2).
Defined.

(** ** The errors *)

(** C5: when the table has no sample for the number of bombs, no analysis
    returns an instance: the look-up of the samples raises [KeyError] for
    that number, which is the exception of the whole analysis unless the
    probability loop has already divided by zero; no multiplier is made
    up. *)
Theorem C5_missing_samples_raise (smcd : list row) (M K : Z) (bet : Q) (N : Z)
    (tr : list event) :
  M ∉ col_A <$> smcd ->
  (forall self, fst (__init__ smcd M K bet N tr) <> Ok self) /\
  (~ loop_divides_by_zero N K ->
   fst (__init__ smcd M K bet N tr) = Raise (KeyError M)) /\
  (forall self tr',
     num_bombs self = M ->
     fst (predict_multiplier smcd self tr') = Raise (KeyError M)).
Proof.
  intros Hk. split; [|split].
  - intros self H. apply init_inv in H as (_ & Hin & _). contradiction.
  - intros Hl. rewrite init_raise_key by assumption. reflexivity.
  - intros self tr' <-. rewrite predict_multiplier_raise by exact Hk. reflexivity.
Qed.

Lemma C5_witness :
  (4 ∉ col_A <$> sample_table) /\
  fst (__init__ sample_table 4 3 1 25 []) = Raise (KeyError 4).
Proof.
  assert (Hk : 4 ∉ col_A <$> sample_table).
  { intros H. apply list_elem_of_In in H. simpl in H. lia. }
  split; [exact Hk|].
  apply (C5_missing_samples_raise sample_table 4 3 1 25 [] Hk).
  unfold loop_divides_by_zero. lia.
Defined.

(** C2, as the code has it: there is no validation and no
    [InvalidScenario].  An analysis raises exactly in three cases:
    [ZeroDivisionError] in the probability loop when
    [0 <= boardSize < revealedCount]; otherwise [KeyError] when the table
    has no sample for the number of bombs; otherwise [ZeroDivisionError]
    in the expected value when the bet is zero.  Every other input
    returns an instance. *)
Theorem C2_only_three_ways_to_raise (smcd : list row) (M K : Z) (bet : Q) (N : Z)
    (tr : list event) :
  (forall e,
     fst (__init__ smcd M K bet N tr) = Raise e <->
     (loop_divides_by_zero N K /\ e = ZeroDivisionError) \/
     (~ loop_divides_by_zero N K /\ (M ∉ col_A <$> smcd) /\ e = KeyError M) \/
     (~ loop_divides_by_zero N K /\ (M ∈ col_A <$> smcd) /\ (bet == 0)%Q /\
      e = ZeroDivisionError)) /\
  ((exists self, fst (__init__ smcd M K bet N tr) = Ok self) <->
   ~ loop_divides_by_zero N K /\ (M ∈ col_A <$> smcd) /\ ~ (bet == 0)%Q).
Proof.
  split.
  - intros e.
    destruct (decide (loop_divides_by_zero N K)) as [Hl|Hl].
    { rewrite init_raise_loop by exact Hl. simpl.
      split; [intros [= <-]; auto | intros [[_ ->]|[[? _]|[? _]]]; tauto]. }
    destruct (decide (M ∈ col_A <$> smcd)) as [Hk|Hk].
    2: { rewrite init_raise_key by assumption. simpl.
         split; [intros [= <-]; auto | intros [[? _]|[(_ & _ & ->)|(_ & ? & _)]]; tauto]. }
    destruct (Qeq_dec bet 0) as [Hb|Hb].
    { rewrite init_raise_bet by assumption. simpl.
      split; [intros [= <-]; auto 6
             | intros [[? _]|[(_ & ? & _)|(_ & _ & _ & ->)]]; tauto]. }
    destruct (init_ok smcd M K bet N tr Hl Hk Hb) as (self & -> & _). simpl.
    split; [discriminate | intros [[? _]|[(_ & ? & _)|(_ & _ & ? & _)]]; tauto].
  - split.
    + intros [self H]. apply init_inv in H. tauto.
    + intros (Hl & Hk & Hb).
      destruct (init_ok smcd M K bet N tr Hl Hk Hb) as (self & -> & _).
      exists self. reflexivity.
Qed.

(** C2 fails as stated: 21 reveals on a board of 25 cells with 5 bombs are
    one more than the 20 safe cells, and the analysis returns an instance,
    with a success rate of 0 and a failure rate of 100. *)
Lemma C2_invalid_scenario_is_analysed :
  exists self,
    fst (__init__ sample_table 5 21 1 25 []) = Ok self /\
    (Success_Rate (insights self) == 0)%Q /\
    (Failure_Rate (insights self) == 100)%Q.
Proof.
  eexists. split; [vm_compute; reflexivity|]. split; vm_compute; reflexivity.
Qed.

(** ** The multiplier *)

(** C8: the multiplier of a returned instance is the interpolant of the
    samples of its number of bombs, evaluated at the number of covered
    cells [boardSize - revealedCount]. *)
Theorem C8_multiplier_at_covered_cells (smcd : list row) (M K : Z) (bet : Q)
    (N : Z) (tr : list event) (self : OutcomeAnalyzer) :
  fst (__init__ smcd M K bet N tr) = Ok self ->
  covered_spaces self = N - K /\
  exists predictor,
    scipy.interp1d (fst <$> samples smcd M) (snd <$> samples smcd M)
    = Ok predictor /\
    Multiplier (insights self) = predictor (inject_Z (N - K)).
Proof.
  intros H. apply init_inv in H as (_ & Hk & _ & s & f & _ & _ & ->).
  split; [reflexivity|]. eexists. split.
  - apply interp1d_samples. apply samples_nonempty. exact Hk.
  - reflexivity.
Qed.

Lemma C8_witness :
  exists self predictor,
    fst (__init__ sample_table 5 3 1 25 []) = Ok self /\
    scipy.interp1d (fst <$> samples sample_table 5) (snd <$> samples sample_table 5)
    = Ok predictor /\
    Multiplier (insights self) = predictor (inject_Z (25 - 3)) /\
    ~ float_eq (Multiplier (insights self)) (predictor (inject_Z 3)).
Proof.
  eexists.
  assert (E : fst (__init__ sample_table 5 3 1 25 []) = Ok _)
    by (vm_compute; reflexivity).
  destruct (C8_multiplier_at_covered_cells sample_table 5 3 1 25 [] _ E)
    as (_ & predictor & Hp & Hm).
  exists predictor. split; [exact E|]. split; [exact Hp|]. split; [exact Hm|].
  rewrite interp1d_samples in Hp by discriminate. injection Hp as <-.
  vm_compute. discriminate.
Defined.

(** C3: when the samples of a number of bombs are ordered by strictly
    increasing x and there are at least two of them, the multiplier step
    succeeds and its predictor is the piecewise-linear interpolant: between
    two adjacent samples the prediction is on the line through them, below
    the first sample it is on the line through the first two, above the last
    sample on the line through the last two. *)
Theorem C3_piecewise_linear (smcd : list row) (self : OutcomeAnalyzer)
    (tr : list event) :
  increasing (fst <$> samples smcd (num_bombs self)) ->
  (2 <= length (samples smcd (num_bombs self)))%nat ->
  exists predictor,
    scipy.interp1d (fst <$> samples smcd (num_bombs self))
                   (snd <$> samples smcd (num_bombs self)) = Ok predictor /\
    (exists self',
       fst (predict_multiplier smcd self tr) = Ok self' /\
       Multiplier (insights self') = predictor (inject_Z (covered_spaces self))) /\
    forall q : Q,
      let pts := samples smcd (num_bombs self) in
      (forall j p1 p2,
         pts !! j = Some p1 -> pts !! S j = Some p2 ->
         (fst p1 <= q <= fst p2)%Q ->
         float_eq (predictor q) (Finite (line p1 p2 q))) /\
      (forall p1 p2,
         pts !! 0%nat = Some p1 -> pts !! 1%nat = Some p2 ->
         (q < fst p1)%Q ->
         float_eq (predictor q) (Finite (line p1 p2 q))) /\
      (forall p1 p2,
         pts !! (length pts - 2)%nat = Some p1 ->
         pts !! (length pts - 1)%nat = Some p2 ->
         (fst p2 < q)%Q ->
         float_eq (predictor q) (Finite (line p1 p2 q))).
Proof.
  intros Hinc Hlen.
  set (pts := samples smcd (num_bombs self)) in *.
  assert (Hne : pts <> []) by (intros E; rewrite E in Hlen; simpl in Hlen; lia).
  assert (Hxs : (2 <= length (fst <$> pts))%nat) by (rewrite length_fmap; exact Hlen).
  eexists. split; [exact (interp1d_samples pts Hne)|].
  rewrite (sort_by_x_increasing pts Hinc). split.
  - eexists. rewrite predict_multiplier_ok by (apply samples_nonempty; exact Hne).
    fold pts. rewrite (sort_by_x_increasing pts Hinc). split; reflexivity.
  - intros q. split; [|split].
    + intros j p1 p2 H1 H2 Hq.
      destruct (interp_between (fst <$> pts) (snd <$> pts) q j Hinc) as (m & -> & Hm).
      * rewrite length_fmap. apply lookup_lt_Some in H2. exact H2.
      * rewrite (nth_fst pts j p1 H1), (nth_fst pts (S j) p2 H2). exact Hq.
      * rewrite (nth_fst pts j p1 H1), (nth_fst pts (S j) p2 H2),
          (nth_snd pts j p1 H1), (nth_snd pts (S j) p2 H2) in Hm.
        destruct p1, p2. exact Hm.
    + intros p1 p2 H1 H2 Hq.
      destruct (interp_below (fst <$> pts) (snd <$> pts) q Hinc Hxs) as (m & -> & Hm).
      * rewrite (nth_fst pts 0 p1 H1). exact Hq.
      * rewrite (nth_fst pts 0 p1 H1), (nth_fst pts 1 p2 H2),
          (nth_snd pts 0 p1 H1), (nth_snd pts 1 p2 H2) in Hm.
        destruct p1, p2. exact Hm.
    + intros p1 p2 H1 H2 Hq.
      destruct (interp_above (fst <$> pts) (snd <$> pts) q Hinc Hxs) as (m & -> & Hm).
      * rewrite length_fmap, (nth_fst pts _ p2 H2). exact Hq.
      * rewrite !length_fmap in Hm.
        rewrite (nth_fst pts _ p1 H1), (nth_fst pts _ p2 H2),
          (nth_snd pts _ p1 H1), (nth_snd pts _ p2 H2) in Hm.
        destruct p1, p2. exact Hm.
Qed.

Lemma C3_witness :
  increasing (fst <$> samples sample_table 3) /\
  (2 <= length (samples sample_table 3))%nat /\
  exists predictor,
    scipy.interp1d (fst <$> samples sample_table 3) (snd <$> samples sample_table 3)
    = Ok predictor /\
    float_eq (predictor 22%Q) (Finite (line (20, 1.9) (24, 1.1) 22))%Q /\
    float_eq (predictor 2%Q) (Finite (line (20, 1.9) (24, 1.1) 2))%Q /\
    float_eq (predictor 30%Q) (Finite (line (20, 1.9) (24, 1.1) 30))%Q.
Proof.
  assert (Hinc : increasing (fst <$> samples sample_table 3))
    by (simpl; split; [reflexivity | exact I]).
  assert (Hlen : (2 <= length (samples sample_table 3))%nat) by (simpl; lia).
  split; [exact Hinc|]. split; [exact Hlen|].
  destruct (C3_piecewise_linear sample_table
              (mkSelf 3 3 25 1 (mkInsights 0 0 (Finite 0) (Finite 0)) 22) []
              Hinc Hlen) as (predictor & Hp & _ & Hall).
  exists predictor. split; [exact Hp|]. split; [|split].
  - apply (proj1 (Hall 22%Q) 0%nat (20, 1.9)%Q (24, 1.1)%Q);
      [reflexivity | reflexivity | split; vm_compute; discriminate].
  - apply (proj1 (proj2 (Hall 2%Q)) (20, 1.9)%Q (24, 1.1)%Q);
      [reflexivity | reflexivity | reflexivity].
  - apply (proj2 (proj2 (Hall 30%Q)) (20, 1.9)%Q (24, 1.1)%Q);
      [reflexivity | reflexivity | reflexivity].
Defined.




(** ** The reads of the table in one process *)

(** C9, as the code has it: nothing is cached.  Every analysis that gets
    past the probability loop reads and decrypts the table once more, so
    the number of reads in a process grows by one with each such
    analysis. *)
Theorem C9_one_load_per_analysis (smcd : list row) (requests : list Scenario)
    (tr : list event) :
  loads (session smcd requests tr)
  = (loads tr + length (List.filter reaches_the_table requests))%nat.
Proof.
  revert tr. induction requests as [|[[[M K] bet] N] rest IH]; intros tr.
  - simpl. lia.
  - simpl session. rewrite IH, calculate_and_visualize_trace, init_loads.
    simpl List.filter.
    destruct (decide (loop_divides_by_zero N K)) as [Hl|Hl];
      unfold loop_divides_by_zero in Hl.
    + replace ((0 <=? N) && (N <? K)) with true
        by (symmetry; apply andb_true_iff; lia).
      simpl. lia.
    + replace ((0 <=? N) && (N <? K)) with false
        by (symmetry; apply andb_false_iff; lia).
      simpl. lia.
Qed.

(** C9 fails as stated: two analyses of the same scenario in one process
    read the table twice. *)
Lemma C9_second_analysis_loads_again :
  ~ (loads (session sample_table [(5, 3, 1%Q, 25); (5, 3, 1%Q, 25)]%Z []) <= 1)%nat.
Proof. vm_compute. lia. Qed.

(** * Further properties of the code *)

(** ** The product, one factor at a time *)

Section Product.
Local Open Scope Q_scope.

Lemma product_app (N M : Z) (l1 l2 : list Z) :
  foldr (fun i acc => factor N M i * acc) 1 (l1 ++ l2)
  == foldr (fun i acc => factor N M i * acc) 1 l1
     * foldr (fun i acc => factor N M i * acc) 1 l2.
Proof.
  induction l1 as [|i l1 IH]; simpl.
  - ring.
  - rewrite IH. ring.
Qed.

Lemma hypergeometric_nonpos (N M K : Z) : (K <= 0)%Z -> hypergeometric N M K = 1.
Proof.
  intros HK. unfold hypergeometric, seqZ.
  replace (Z.to_nat K) with 0%nat by lia. reflexivity.
Qed.

Lemma hypergeometric_succ (N M K : Z) :
  (0 <= K)%Z ->
  hypergeometric N M (K + 1) == hypergeometric N M K * factor N M K.
Proof.
  intros HK. unfold hypergeometric.
  rewrite (seqZ_app 0 K 1) by lia. rewrite product_app.
  unfold seqZ at 2. simpl.
  replace (Z.of_nat 0 + (0 + K))%Z with K by lia. ring.
Qed.



Lemma product_zero (N M i : Z) (l : list Z) :
  i ∈ l -> factor N M i == 0 ->
  foldr (fun i acc => factor N M i * acc) 1 l == 0.
Proof.
  intros Hin Hz. induction l as [|j l IH]; [inversion Hin|].
  simpl. apply elem_of_cons in Hin as [<-|Hin].
  - rewrite Hz. ring.
  - rewrite (IH Hin). ring.
Qed.

Lemma hypergeometric_zero (N M K : Z) :
  (0 <= N - M < K)%Z -> hypergeometric N M K == 0.
Proof.
  intros H. unfold hypergeometric. apply (product_zero N M (N - M)%Z).
  - apply elem_of_seqZ. lia.
  - unfold factor. replace (N - M - (N - M))%Z with 0%Z by lia.
    unfold Qdiv. change (inject_Z 0) with 0. ring.
Qed.


Lemma Qfact_pos (n : Z) : 0 < Qfact n.
Proof.
  unfold Qfact. change 0 with (inject_Z 0). rewrite <- Zlt_Qlt.
  pose proof (lt_O_fact (Z.to_nat n)). lia.
Qed.

Lemma Qfact_succ (n : Z) :
  (0 <= n)%Z -> Qfact (n + 1) == inject_Z (n + 1) * Qfact n.
Proof.
  intros Hn. unfold Qfact. rewrite <- inject_Z_mult.
  replace (Z.to_nat (n + 1)) with (S (Z.to_nat n)) by lia.
  change (fact (S (Z.to_nat n))) with (S (Z.to_nat n) * fact (Z.to_nat n))%nat.
  rewrite Nat2Z.inj_mul. replace (Z.of_nat (S (Z.to_nat n))) with (n + 1)%Z by lia.
  reflexivity.
Qed.

(** The product counts subsets: it is [C(N - M, K) / C(N, K)], written
    without the divisions. *)
Lemma hypergeometric_factorials (N M K : Z) :
  (0 <= M)%Z -> (0 <= K <= N - M)%Z ->
  hypergeometric N M K * (Qfact N * Qfact (N - M - K))
  == Qfact (N - M) * Qfact (N - K).
Proof.
  intros HM [HK0 HK]. revert K HK0 HK.
  apply (natlike_ind (fun K => (K <= N - M)%Z ->
           hypergeometric N M K * (Qfact N * Qfact (N - M - K))
           == Qfact (N - M) * Qfact (N - K))).
  - intros _. rewrite hypergeometric_nonpos by lia.
    replace (N - M - 0)%Z with (N - M)%Z by lia.
    replace (N - 0)%Z with N by lia. ring.
  - intros K HK IH Hle. specialize (IH ltac:(lia)). unfold Z.succ.
    rewrite hypergeometric_succ by exact HK.
    replace (N - M - K)%Z with ((N - M - (K + 1)) + 1)%Z in IH by lia.
    replace (N - K)%Z with ((N - (K + 1)) + 1)%Z in IH by lia.
    rewrite (Qfact_succ (N - M - (K + 1))), (Qfact_succ (N - (K + 1))) in IH by lia.
    replace (N - M - (K + 1) + 1)%Z with (N - M - K)%Z in IH by lia.
    replace (N - (K + 1) + 1)%Z with (N - K)%Z in IH by lia.
    unfold factor.
    assert (Hb : 0 < inject_Z (N - K))
      by (change 0 with (inject_Z 0); rewrite <- Zlt_Qlt; lia).
    apply (Qmult_inj_r _ _ (inject_Z (N - K))); [lra|].
    transitivity (hypergeometric N M K
                  * (Qfact N * (inject_Z (N - M - K) * Qfact (N - M - (K + 1))))).
    + field. lra.
    + rewrite IH. ring.
Qed.

Lemma hypergeometric_symmetric (N M K : Z) :
  (0 <= M)%Z -> (0 <= K)%Z -> (M + K <= N)%Z ->
  hypergeometric N M K == hypergeometric N K M.
Proof.
  intros HM HK Hle.
  pose proof (hypergeometric_factorials N M K HM ltac:(lia)) as H1.
  pose proof (hypergeometric_factorials N K M HK ltac:(lia)) as H2.
  replace (N - K - M)%Z with (N - M - K)%Z in H2 by lia.
  pose proof (Qfact_pos N). pose proof (Qfact_pos (N - M - K)).
  assert (Hd : 0 < Qfact N * Qfact (N - M - K)) by (apply Qmult_lt_0_compat; assumption).
  apply (Qmult_inj_r _ _ (Qfact N * Qfact (N - M - K))); [lra|].
  rewrite H1, H2. ring.
Qed.

End Product.

(** ** The rates, as the board, the bombs and the reveals vary *)

Lemma rates_value (M K N : Z) (bet : Q) (ins : Insights) (c : Z) :
  ~ loop_divides_by_zero N K ->
  exists self',
    calculate_success_failure_rates (mkSelf M K N bet ins c) = Ok self' /\
    (Success_Rate (insights self') == 100 * hypergeometric N M K)%Q /\
    (Failure_Rate (insights self') == 100 - 100 * hypergeometric N M K)%Q.
Proof.
  intros Hl.
  destruct (rates_ok (mkSelf M K N bet ins c) Hl) as (s & f & E & Hs & Hf).
  simpl in *. eexists. split; [exact E|]. simpl. split; [exact Hs|]. lra.
Qed.

(** X1: with no reveal, or a negative number of reveals, the loop does not
    run: the rates are 100 and 0 on every board, also on a board of no
    cells, where any reveal would divide by zero. *)
Theorem X1_no_reveal_is_certain (M K N : Z) (bet : Q) (ins : Insights) (c : Z) :
  K <= 0 ->
  exists self',
    calculate_success_failure_rates (mkSelf M K N bet ins c) = Ok self' /\
    (Success_Rate (insights self') == 100)%Q /\
    (Failure_Rate (insights self') == 0)%Q.
Proof.
  intros HK.
  destruct (rates_value M K N bet ins c) as (self' & E & Hs & Hf);
    [unfold loop_divides_by_zero; lia|].
  rewrite hypergeometric_nonpos in Hs, Hf by exact HK.
  exists self'. split; [exact E|]. split; lra.
Qed.

Lemma X1_witness :
  exists self',
    calculate_success_failure_rates
      (mkSelf 3 (-2) 0 1 (mkInsights 0 0 (Finite 0) (Finite 0)) 2) = Ok self' /\
    (Success_Rate (insights self') == 100)%Q /\
    (Failure_Rate (insights self') == 0)%Q.
Proof.
  apply (X1_no_reveal_is_certain 3 (-2) 0 1 (mkInsights 0 0 (Finite 0) (Finite 0)) 2).
  lia.
Defined.

(** X2: more reveals than there are safe cells, without the loop dividing
    by zero, give a success rate of 0 and a failure rate of 100: the factor
    of the draw number [N - M] is zero. *)
Theorem X2_too_many_reveals_always_fail (M K N : Z) (bet : Q) (ins : Insights)
    (c : Z) :
  0 <= N - M < K -> ~ loop_divides_by_zero N K ->
  exists self',
    calculate_success_failure_rates (mkSelf M K N bet ins c) = Ok self' /\
    (Success_Rate (insights self') == 0)%Q /\
    (Failure_Rate (insights self') == 100)%Q.
Proof.
  intros HK Hl.
  destruct (rates_value M K N bet ins c Hl) as (self' & E & Hs & Hf).
  rewrite hypergeometric_zero in Hs, Hf by exact HK.
  exists self'. split; [exact E|]. split; lra.
Qed.

Lemma X2_witness :
  exists self',
    calculate_success_failure_rates
      (mkSelf 5 23 25 1 (mkInsights 0 0 (Finite 0) (Finite 0)) 2) = Ok self' /\
    (Success_Rate (insights self') == 0)%Q /\
    (Failure_Rate (insights self') == 100)%Q.
Proof.
  apply (X2_too_many_reveals_always_fail 5 23 25 1
           (mkInsights 0 0 (Finite 0) (Finite 0)) 2);
    unfold loop_divides_by_zero; lia.
Defined.



(** X4: each further reveal multiplies the success rate by the chance of
    the next draw, [(N - M - K) / (N - K)]. *)
Theorem X4_one_more_reveal (M K N : Z) (bet1 bet2 : Q) (ins1 ins2 : Insights)
    (c1 c2 : Z) :
  0 <= K -> ~ loop_divides_by_zero N (K + 1) ->
  exists self1 self2,
    calculate_success_failure_rates (mkSelf M K N bet1 ins1 c1) = Ok self1 /\
    calculate_success_failure_rates (mkSelf M (K + 1) N bet2 ins2 c2) = Ok self2 /\
    (Success_Rate (insights self2)
     == Success_Rate (insights self1) * (inject_Z (N - M - K) / inject_Z (N - K)))%Q.
Proof.
  intros HK Hl.
  destruct (rates_value M K N bet1 ins1 c1) as (self1 & E1 & Hs1 & _);
    [unfold loop_divides_by_zero in *; lia|].
  destruct (rates_value M (K + 1) N bet2 ins2 c2 Hl) as (self2 & E2 & Hs2 & _).
  exists self1, self2. split; [exact E1|]. split; [exact E2|].
  rewrite Hs2, Hs1, hypergeometric_succ by exact HK. unfold factor. ring.
Qed.

Lemma X4_witness :
  exists self1 self2,
    calculate_success_failure_rates
      (mkSelf 5 3 25 1 (mkInsights 0 0 (Finite 0) (Finite 0)) 22) = Ok self1 /\
    calculate_success_failure_rates
      (mkSelf 5 (3 + 1) 25 1 (mkInsights 0 0 (Finite 0) (Finite 0)) 21) = Ok self2 /\
    (Success_Rate (insights self2)
     == Success_Rate (insights self1) * (inject_Z (25 - 5 - 3) / inject_Z (25 - 3)))%Q.
Proof.
  apply (X4_one_more_reveal 5 3 25 1 1 (mkInsights 0 0 (Finite 0) (Finite 0))
           (mkInsights 0 0 (Finite 0) (Finite 0)) 22 21);
    unfold loop_divides_by_zero; lia.
Defined.



(** X6: the success rate is 100 times the number of ways to choose the [K]
    reveals among the [N - M] safe cells over the number of ways to choose
    them among all [N] cells: [successRate * N! * (N - M - K)!
    = 100 * (N - M)! * (N - K)!]. *)
Theorem X6_success_rate_counts_choices (M K N : Z) (bet : Q) (ins : Insights)
    (c : Z) :
  0 <= M -> 0 <= K <= N - M ->
  exists self',
    calculate_success_failure_rates (mkSelf M K N bet ins c) = Ok self' /\
    (Success_Rate (insights self') * (Qfact N * Qfact (N - M - K))
     == 100 * (Qfact (N - M) * Qfact (N - K)))%Q.
Proof.
  intros HM HK.
  destruct (rates_value M K N bet ins c) as (self' & E & Hs & _);
    [unfold loop_divides_by_zero; lia|].
  exists self'. split; [exact E|].
  rewrite Hs, <- (hypergeometric_factorials N M K HM HK). ring.
Qed.

Lemma X6_witness :
  exists self',
    calculate_success_failure_rates
      (mkSelf 2 2 5 1 (mkInsights 0 0 (Finite 0) (Finite 0)) 3) = Ok self' /\
    (Success_Rate (insights self') * (Qfact 5 * Qfact (5 - 2 - 2))
     == 100 * (Qfact (5 - 2) * Qfact (5 - 2)))%Q.
Proof.
  apply (X6_success_rate_counts_choices 2 2 5 1
           (mkInsights 0 0 (Finite 0) (Finite 0)) 3); lia.
Defined.

(** X7: bombs and reveals can be exchanged: [K] reveals among [M] bombs
    succeed as often as [M] reveals among [K] bombs, as long as
    [M + K <= N]. *)
Theorem X7_bombs_and_reveals_exchange (M K N : Z) (bet1 bet2 : Q)
    (ins1 ins2 : Insights) (c1 c2 : Z) :
  0 <= M -> 0 <= K -> M + K <= N ->
  exists self1 self2,
    calculate_success_failure_rates (mkSelf M K N bet1 ins1 c1) = Ok self1 /\
    calculate_success_failure_rates (mkSelf K M N bet2 ins2 c2) = Ok self2 /\
    (Success_Rate (insights self1) == Success_Rate (insights self2))%Q /\
    (Failure_Rate (insights self1) == Failure_Rate (insights self2))%Q.
Proof.
  intros HM HK Hle.
  destruct (rates_value M K N bet1 ins1 c1) as (self1 & E1 & Hs1 & Hf1);
    [unfold loop_divides_by_zero; lia|].
  destruct (rates_value K M N bet2 ins2 c2) as (self2 & E2 & Hs2 & Hf2);
    [unfold loop_divides_by_zero; lia|].
  pose proof (hypergeometric_symmetric N M K HM HK Hle) as Hsym.
  exists self1, self2. split; [exact E1|]. split; [exact E2|]. split; lra.
Qed.

Lemma X7_witness :
  exists self1 self2,
    calculate_success_failure_rates
      (mkSelf 5 3 25 1 (mkInsights 0 0 (Finite 0) (Finite 0)) 22) = Ok self1 /\
    calculate_success_failure_rates
      (mkSelf 3 5 25 2 (mkInsights 0 0 (Finite 0) (Finite 0)) 20) = Ok self2 /\
    (Success_Rate (insights self1) == Success_Rate (insights self2))%Q /\
    (Failure_Rate (insights self1) == Failure_Rate (insights self2))%Q.
Proof.
  apply (X7_bombs_and_reveals_exchange 5 3 25 1 2
           (mkInsights 0 0 (Finite 0) (Finite 0))
           (mkInsights 0 0 (Finite 0) (Finite 0)) 22 20); lia.
Defined.

(** X8: on a board without bombs every reveal is safe: the success rate
    is 100 for any number of reveals up to the size of the board. *)
Theorem X8_no_bomb_no_risk (K N : Z) (bet : Q) (ins : Insights) (c : Z) :
  K <= N ->
  exists self',
    calculate_success_failure_rates (mkSelf 0 K N bet ins c) = Ok self' /\
    (Success_Rate (insights self') == 100)%Q /\
    (Failure_Rate (insights self') == 0)%Q.
Proof.
  intros HK.
  destruct (rates_value 0 K N bet ins c) as (self' & E & Hs & Hf);
    [unfold loop_divides_by_zero; lia|].
  exists self'. split; [exact E|].
  assert (H1 : (hypergeometric N 0 K == 1)%Q).
  { destruct (Z.le_gt_cases K 0) as [HK0|HK0].
    - rewrite hypergeometric_nonpos by exact HK0. reflexivity.
    - pose proof (hypergeometric_factorials N 0 K ltac:(lia) ltac:(lia)) as Hc.
      replace (N - 0 - K) with (N - K) in Hc by lia.
      replace (N - 0) with N in Hc by lia.
      pose proof (Qfact_pos N). pose proof (Qfact_pos (N - K)).
      assert (Hd : (0 < Qfact N * Qfact (N - K))%Q)
        by (apply Qmult_lt_0_compat; assumption).
      apply (Qmult_inj_r _ _ (Qfact N * Qfact (N - K))%Q); [lra|].
      rewrite Hc. ring. }
  rewrite H1 in Hs, Hf. split; lra.
Qed.

Lemma X8_witness :
  exists self',
    calculate_success_failure_rates
      (mkSelf 0 25 25 1 (mkInsights 0 0 (Finite 0) (Finite 0)) 0) = Ok self' /\
    (Success_Rate (insights self') == 100)%Q /\
    (Failure_Rate (insights self') == 0)%Q.
Proof.
  apply (X8_no_bomb_no_risk 25 25 1 (mkInsights 0 0 (Finite 0) (Finite 0)) 0). lia.
Defined.

(** ** The expected value *)

(** The expected value of a returned instance, in terms of the product:
    the chance of winning times the multiplier per unit of bet, minus 1. *)
Lemma init_expected_value (smcd : list row) (M K : Z) (bet : Q) (N : Z)
    (tr : list event) (self : OutcomeAnalyzer) (m : Q) :
  fst (__init__ smcd M K bet N tr) = Ok self ->
  Multiplier (insights self) = Finite m ->
  ~ (bet == 0)%Q /\
  (Success_Rate (insights self) == 100 * hypergeometric N M K)%Q /\
  scipy.call_linear (fst <$> scipy.sort_by_x (samples smcd M))
    (snd <$> scipy.sort_by_x (samples smcd M)) (inject_Z (N - K)) = Finite m /\
  exists ev,
    Expected_Value (insights self) = Finite ev /\
    (ev == hypergeometric N M K * (m / bet) - 1)%Q.
Proof.
  intros H Hm. apply init_inv in H as (_ & _ & Hb & s & f & Hs & Hf & ->).
  cbn [insights Multiplier Success_Rate Expected_Value] in *.
  split; [exact Hb|]. split; [exact Hs|]. split; [exact Hm|].
  rewrite Hm. cbn [float_lift2 float_add float_sub float_mul].
  eexists. split; [reflexivity|]. rewrite Hf, Hs. field. exact Hb.
Qed.

(** X9: the expected value of a returned instance is the chance of winning
    times the multiplier per unit of bet, minus 1:
    [successRate / 100 * (multiplier / bet) - 1]; the failure rate has
    dropped out. *)
Theorem X9_expected_value_is_return_minus_one (smcd : list row) (M K : Z)
    (bet : Q) (N : Z) (tr : list event) (self : OutcomeAnalyzer) (m : Q) :
  fst (__init__ smcd M K bet N tr) = Ok self ->
  Multiplier (insights self) = Finite m ->
  exists ev,
    Expected_Value (insights self) = Finite ev /\
    (ev == Success_Rate (insights self) / 100 * (m / bet) - 1)%Q.
Proof.
  intros H Hm.
  destruct (init_expected_value _ _ _ _ _ _ _ _ H Hm) as (Hb & Hs & _ & ev & Hev & Heq).
  exists ev. split; [exact Hev|]. rewrite Heq, Hs. field. exact Hb.
Qed.

Lemma X9_witness :
  exists self ev,
    fst (__init__ sample_table 5 3 2 25 []) = Ok self /\
    Multiplier (insights self) = Finite (3600 # 2000) /\
    Expected_Value (insights self) = Finite ev /\
    (ev == Success_Rate (insights self) / 100 * ((3600 # 2000) / 2) - 1)%Q.
Proof.
  eexists.
  assert (E : fst (__init__ sample_table 5 3 2 25 []) = Ok _)
    by (vm_compute; reflexivity).
  destruct (X9_expected_value_is_return_minus_one sample_table 5 3 2 25 [] _
              (3600 # 2000) E eq_refl) as (ev & Hev & Heq).
  exists ev. split; [exact E|]. split; [reflexivity|]. split; [exact Hev | exact Heq].
Defined.

(** X10: two analyses that differ in the bet only read the same
    multiplier, and their expected values are tied by
    [(ev1 + 1) * bet1 = (ev2 + 1) * bet2]: doubling the bet halves
    [ev + 1]. *)
Theorem X10_bet_rescales_expected_value (smcd : list row) (M K N : Z)
    (bet1 bet2 : Q) (tr1 tr2 : list event) (self1 self2 : OutcomeAnalyzer) (m : Q) :
  fst (__init__ smcd M K bet1 N tr1) = Ok self1 ->
  fst (__init__ smcd M K bet2 N tr2) = Ok self2 ->
  Multiplier (insights self1) = Finite m ->
  Multiplier (insights self2) = Finite m /\
  exists ev1 ev2,
    Expected_Value (insights self1) = Finite ev1 /\
    Expected_Value (insights self2) = Finite ev2 /\
    ((ev1 + 1) * bet1 == (ev2 + 1) * bet2)%Q.
Proof.
  intros H1 H2 Hm1.
  destruct (init_expected_value _ _ _ _ _ _ _ _ H1 Hm1)
    as (Hb1 & _ & Hc & ev1 & Hev1 & Heq1).
  assert (Hm2 : Multiplier (insights self2) = Finite m).
  { apply init_inv in H2 as (_ & _ & _ & s & f & _ & _ & ->). exact Hc. }
  destruct (init_expected_value _ _ _ _ _ _ _ _ H2 Hm2)
    as (Hb2 & _ & _ & ev2 & Hev2 & Heq2).
  split; [exact Hm2|]. exists ev1, ev2. split; [exact Hev1|]. split; [exact Hev2|].
  rewrite Heq1, Heq2. field. split; assumption.
Qed.

Lemma X10_witness :
  exists self1 self2 ev1 ev2,
    fst (__init__ sample_table 5 3 1 25 []) = Ok self1 /\
    fst (__init__ sample_table 5 3 2 25 []) = Ok self2 /\
    Multiplier (insights self2) = Finite (3600 # 2000) /\
    Expected_Value (insights self1) = Finite ev1 /\
    Expected_Value (insights self2) = Finite ev2 /\
    ((ev1 + 1) * 1 == (ev2 + 1) * 2)%Q.
Proof.
  eexists. eexists.
  assert (E1 : fst (__init__ sample_table 5 3 1 25 []) = Ok _)
    by (vm_compute; reflexivity).
  assert (E2 : fst (__init__ sample_table 5 3 2 25 []) = Ok _)
    by (vm_compute; reflexivity).
  destruct (X10_bet_rescales_expected_value sample_table 5 3 25 1 2 [] [] _ _
              (3600 # 2000) E1 E2 eq_refl) as (Hm & ev1 & ev2 & H1 & H2 & Heq).
  exists ev1, ev2. split; [exact E1|]. split; [exact E2|]. split; [exact Hm|].
  split; [exact H1|]. split; [exact H2 | exact Heq].
Defined.

(** X11: for a positive bet, the expected value of a returned instance is
    not negative exactly when the success rate times the multiplier is at
    least 100 times the bet. *)
Theorem X11_break_even (smcd : list row) (M K : Z) (bet : Q) (N : Z)
    (tr : list event) (self : OutcomeAnalyzer) (m : Q) :
  fst (__init__ smcd M K bet N tr) = Ok self ->
  Multiplier (insights self) = Finite m ->
  (0 < bet)%Q ->
  exists ev,
    Expected_Value (insights self) = Finite ev /\
    ((0 <= ev)%Q <-> (100 * bet <= Success_Rate (insights self) * m)%Q).
Proof.
  intros H Hm Hbet.
  destruct (init_expected_value _ _ _ _ _ _ _ _ H Hm) as (Hb & Hs & _ & ev & Hev & Heq).
  exists ev. split; [exact Hev|].
  set (u := (hypergeometric N M K * (m / bet))%Q) in *.
  assert (Hu : (Success_Rate (insights self) * m == 100 * u * bet)%Q).
  { rewrite Hs. unfold u. field. exact Hb. }
  rewrite Hu, Heq. split; intros Hle.
  - assert (H1 : (1 <= u)%Q) by lra.
    assert (H2 : (1 * (100 * bet) <= u * (100 * bet))%Q)
      by (apply Qmult_le_compat_r; lra).
    lra.
  - apply Qnot_lt_le. intros Hlt.
    assert (H1 : (u < 1)%Q) by lra.
    assert (H2 : (u * (100 * bet) < 1 * (100 * bet))%Q)
      by (apply Qmult_lt_compat_r; lra).
    lra.
Qed.

Lemma X11_witness :
  exists self ev,
    fst (__init__ sample_table 5 3 2 25 []) = Ok self /\
    Expected_Value (insights self) = Finite ev /\
    ((0 <= ev)%Q <-> (100 * 2 <= Success_Rate (insights self) * (3600 # 2000))%Q).
Proof.
  eexists.
  assert (E : fst (__init__ sample_table 5 3 2 25 []) = Ok _)
    by (vm_compute; reflexivity).
  destruct (X11_break_even sample_table 5 3 2 25 [] _ (3600 # 2000) E eq_refl
              ltac:(reflexivity)) as (ev & Hev & Hiff).
  exists ev. split; [exact E|]. split; [exact Hev | exact Hiff].
Defined.

(** X12: when the reveals exceed the safe cells and the analysis still
    returns, the expected value is -1, the whole stake, whatever the
    multiplier and the bet are. *)
Theorem X12_certain_loss_costs_the_stake (smcd : list row) (M K : Z) (bet : Q)
    (N : Z) (tr : list event) (self : OutcomeAnalyzer) (m : Q) :
  fst (__init__ smcd M K bet N tr) = Ok self ->
  Multiplier (insights self) = Finite m ->
  0 <= N - M < K ->
  exists ev, Expected_Value (insights self) = Finite ev /\ (ev == -1)%Q.
Proof.
  intros H Hm HK.
  destruct (init_expected_value _ _ _ _ _ _ _ _ H Hm) as (Hb & _ & _ & ev & Hev & Heq).
  exists ev. split; [exact Hev|].
  rewrite Heq, hypergeometric_zero by exact HK. field. exact Hb.
Qed.

Lemma X12_witness :
  exists self ev,
    fst (__init__ sample_table 5 21 1 25 []) = Ok self /\
    Expected_Value (insights self) = Finite ev /\ (ev == -1)%Q.
Proof.
  eexists.
  assert (E : fst (__init__ sample_table 5 21 1 25 []) = Ok _)
    by (vm_compute; reflexivity).
  destruct (X12_certain_loss_costs_the_stake sample_table 5 21 1 25 [] _
              (16200 # 2000) E eq_refl ltac:(lia)) as (ev & Hev & Heq).
  exists ev. split; [exact E|]. split; [exact Hev | exact Heq].
Defined.

(** ** What an analysis reads, prints and remembers *)

(** X13: loading the samples of a number of bombs reads the table once
    and returns the columns B and C of the rows of that number, in the
    order of the file and never an empty packet; it raises [KeyError] for
    that number exactly when no row has it. *)
Theorem X13_load_returns_the_rows_of_the_bombs (smcd : list row) (M : Z)
    (tr : list event) :
  snd (load_sample_data_packet smcd M tr)
  = tr ++ [ReadEncrypted "assets/dmsc.crypt" "-%nPGS;GIC,2x}2I"] /\
  match fst (load_sample_data_packet smcd M tr) with
  | Ok data_packet =>
      data_packet <> [] /\
      data_packet
      = (fun r => (col_B r, col_C r)) <$> filter (fun r => col_A r = M) smcd
  | Raise e => e = KeyError M /\ forall r, r ∈ smcd -> col_A r <> M
  end.
Proof.
  rewrite load_sample_data_packet_spec. split; [reflexivity|]. simpl.
  destruct (decide (M ∈ col_A <$> smcd)) as [Hin|Hnin].
  - split; [|reflexivity]. apply samples_nonempty. exact Hin.
  - split; [reflexivity|]. intros r Hr HA. apply Hnin.
    apply list_elem_of_fmap. exists r. split; [symmetry; exact HA | exact Hr].
Qed.

(** X14: an analysis only appends to what the process has done so far: it
    reads nothing if the probability loop divides by zero, otherwise it
    reads the table once, and then prints the samples if, and only if, the
    table has some for the number of bombs.  The bet has no part in it. *)
Theorem X14_trace_of_an_analysis (smcd : list row) (M K : Z) (bet : Q) (N : Z)
    (tr : list event) :
  snd (__init__ smcd M K bet N tr)
  = tr ++ (if decide (loop_divides_by_zero N K) then []
           else ReadEncrypted "assets/dmsc.crypt" "-%nPGS;GIC,2x}2I"
                :: (if decide (M ∈ col_A <$> smcd) then [Print (samples smcd M)]
                    else [])).
Proof.
  destruct (decide (loop_divides_by_zero N K)) as [Hl|Hl].
  { rewrite init_raise_loop by exact Hl. simpl. rewrite app_nil_r. reflexivity. }
  destruct (decide (M ∈ col_A <$> smcd)) as [Hk|Hk].
  2: { rewrite init_raise_key by assumption. reflexivity. }
  destruct (Qeq_dec bet 0) as [Hb|Hb].
  { rewrite init_raise_bet by assumption. reflexivity. }
  destruct (init_ok smcd M K bet N tr Hl Hk Hb) as (self' & -> & _). reflexivity.
Qed.

(** ** The predictor on samples with different x-values *)

Section Predictor.
Import scipy.
Local Open Scope Q_scope.

(** On ordered samples every query is answered on some segment. *)
Lemma predictor_on_some_segment (pts : list (Q * Q)) (q : Q) :
  increasing (fst <$> pts) -> (2 <= length pts)%nat ->
  exists j p1 p2 m,
    pts !! j = Some p1 /\ pts !! S j = Some p2 /\ fst p1 < fst p2 /\
    call_linear (fst <$> pts) (snd <$> pts) q = Finite m /\
    m == line p1 p2 q.
Proof.
  intros Hinc Hlen.
  pose proof (searchsorted_range (fst <$> pts) q) as Hr.
  rewrite length_fmap in Hr.
  set (i := clip (searchsorted (fst <$> pts) q) 1 (Z.of_nat (length (fst <$> pts)) - 1)).
  assert (Hi : (1 <= i <= Z.of_nat (length pts) - 1)%Z).
  { unfold i, clip. rewrite length_fmap. lia. }
  set (j := Z.to_nat (i - 1)).
  assert (Hj : (S j < length pts)%nat) by (unfold j; lia).
  destruct (lookup_lt_is_Some_2 pts j ltac:(lia)) as [p1 H1].
  destruct (lookup_lt_is_Some_2 pts (S j) Hj) as [p2 H2].
  pose proof (increasing_adjacent (fst <$> pts) j Hinc
                ltac:(rewrite length_fmap; exact Hj)) as Hadj.
  exists j, p1, p2. eexists.
  split; [exact H1|]. split; [exact H2|].
  rewrite (nth_fst pts j p1 H1), (nth_fst pts (S j) p2 H2) in Hadj.
  split; [exact Hadj|]. split.
  - apply (call_linear_on_segment (fst <$> pts) (snd <$> pts) q j).
    + fold i. unfold j. lia.
    + rewrite (nth_fst pts j p1 H1), (nth_fst pts (S j) p2 H2). exact Hadj.
  - rewrite (nth_fst pts j p1 H1), (nth_fst pts (S j) p2 H2),
      (nth_snd pts j p1 H1), (nth_snd pts (S j) p2 H2).
    destruct p1, p2. apply on_line.
Qed.

(** Two strictly ordered sequences of samples with the same members are
    the same sequence. *)
Lemma increasing_unique (l1 l2 : list (Q * Q)) :
  increasing (fst <$> l1) -> increasing (fst <$> l2) ->
  (forall p, p ∈ l1 <-> p ∈ l2) -> l1 = l2.
Proof.
  revert l2. induction l1 as [|h1 t1 IH]; intros l2 H1 H2 Hmem.
  - destruct l2 as [|h2 t2]; [reflexivity|].
    assert (Hin : h2 ∈ @nil (Q * Q)) by (apply Hmem; left). inversion Hin.
  - destruct l2 as [|h2 t2].
    { assert (Hin : h1 ∈ @nil (Q * Q)) by (apply Hmem; left). inversion Hin. }
    change (increasing (fst h1 :: (fst <$> t1))) in H1.
    change (increasing (fst h2 :: (fst <$> t2))) in H2.
    apply increasing_cons in H1 as [Hall1 Ht1].
    apply increasing_cons in H2 as [Hall2 Ht2].
    rewrite Forall_forall in Hall1, Hall2.
    assert (Hlt1 : forall p, p ∈ t1 -> fst h1 < fst p)
      by (intros p Hp; apply Hall1, list_elem_of_fmap; exists p; auto).
    assert (Hlt2 : forall p, p ∈ t2 -> fst h2 < fst p)
      by (intros p Hp; apply Hall2, list_elem_of_fmap; exists p; auto).
    assert (Hh : h1 = h2).
    { assert (Ha : h1 ∈ h2 :: t2) by (apply Hmem; left).
      assert (Hb : h2 ∈ h1 :: t1) by (apply Hmem; left).
      apply elem_of_cons in Ha as [Ha|Ha]; [exact Ha|].
      apply elem_of_cons in Hb as [Hb|Hb]; [symmetry; exact Hb|].
      specialize (Hlt1 _ Hb). specialize (Hlt2 _ Ha). lra. }
    subst h2. f_equal. apply IH; [exact Ht1 | exact Ht2 |].
    intros p. split; intros Hp.
    + assert (Ha : p ∈ h1 :: t2) by (apply Hmem; right; exact Hp).
      apply elem_of_cons in Ha as [->|Ha]; [|exact Ha].
      specialize (Hlt1 _ Hp). lra.
    + assert (Ha : p ∈ h1 :: t1) by (apply Hmem; right; exact Hp).
      apply elem_of_cons in Ha as [->|Ha]; [|exact Ha].
      specialize (Hlt2 _ Hp). lra.
Qed.

Lemma distinct_x_Permutation (l1 l2 : list (Q * Q)) :
  l1 ≡ₚ l2 -> distinct_x l1 -> distinct_x l2.
Proof.
  induction 1 as [|x l l' Hp IH|x y l|l l' l'' Hp1 IH1 Hp2 IH2]; simpl.
  - tauto.
  - intros [Hne Hd]. split; [|apply IH; exact Hd].
    intros p' Hp'. apply Hne. rewrite Hp. exact Hp'.
  - intros (Hy & Hx & Hd). split; [|split].
    + intros p' Hp'. apply elem_of_cons in Hp' as [->|Hp'].
      * intros E. apply (Hy x); [left | symmetry; exact E].
      * apply Hx. exact Hp'.
    + intros p' Hp'. apply Hy. right. exact Hp'.
    + exact Hd.
  - intros Hd. apply IH2, IH1, Hd.
Qed.

(** Samples with different x-values are sorted to the same sequence in
    whatever order they come. *)
Lemma sort_by_x_Permutation (l1 l2 : list (Q * Q)) :
  l1 ≡ₚ l2 -> distinct_x l1 -> sort_by_x l1 = sort_by_x l2.
Proof.
  intros Hp Hd. apply increasing_unique.
  - apply sort_by_x_distinct. exact Hd.
  - apply sort_by_x_distinct. exact (distinct_x_Permutation _ _ Hp Hd).
  - intros p. rewrite !elem_of_sort_by_x, Hp. reflexivity.
Qed.

End Predictor.

(** X15: when the samples of a number of bombs are at least two and their
    x-values are pairwise different, every analysis that returns has a
    finite multiplier and a finite expected value, wherever the number of
    covered cells lies. *)
Theorem X15_multiplier_is_a_number (smcd : list row) (M K : Z) (bet : Q) (N : Z)
    (tr : list event) (self : OutcomeAnalyzer) :
  distinct_x (samples smcd M) ->
  (2 <= length (samples smcd M))%nat ->
  fst (__init__ smcd M K bet N tr) = Ok self ->
  exists m ev,
    Multiplier (insights self) = Finite m /\
    Expected_Value (insights self) = Finite ev.
Proof.
  intros Hd Hlen H.
  pose proof (sort_by_x_distinct _ Hd) as Hinc.
  destruct (predictor_on_some_segment (scipy.sort_by_x (samples smcd M))
              (inject_Z (N - K)) Hinc
              ltac:(rewrite length_sort_by_x; exact Hlen))
    as (j & p1 & p2 & m & _ & _ & _ & Hm & _).
  assert (HM : Multiplier (insights self) = Finite m).
  { apply init_inv in H as (_ & _ & _ & s & f & _ & _ & ->). exact Hm. }
  destruct (init_expected_value _ _ _ _ _ _ _ _ H HM) as (_ & _ & _ & ev & Hev & _).
  exists m, ev. split; assumption.
Qed.

Lemma X15_witness :
  exists self m ev,
    fst (__init__ sample_table 5 23 1 25 []) = Ok self /\
    Multiplier (insights self) = Finite m /\
    Expected_Value (insights self) = Finite ev.
Proof.
  assert (Hd : distinct_x (samples sample_table 5)).
  { simpl. repeat split; try exact I; intros p' Hp';
      apply list_elem_of_In in Hp'; simpl in Hp';
      intuition (subst; simpl in *; try discriminate). }
  assert (Hlen : (2 <= length (samples sample_table 5))%nat) by (simpl; lia).
  eexists.
  assert (E : fst (__init__ sample_table 5 23 1 25 []) = Ok _)
    by (vm_compute; reflexivity).
  destruct (X15_multiplier_is_a_number sample_table 5 23 1 25 [] _ Hd Hlen E)
    as (m & ev & Hm & Hev).
  exists m, ev. split; [exact E|]. split; [exact Hm | exact Hev].
Defined.

(** X16: between two neighbouring samples (neighbours once sorted by x)
    the prediction lies between their two multipliers: interpolation adds
    no peak and no dip. *)
Theorem X16_prediction_between_neighbours (smcd : list row) (M : Z) (q : Q)
    (j : nat) (p1 p2 : Q * Q) :
  distinct_x (samples smcd M) ->
  scipy.sort_by_x (samples smcd M) !! j = Some p1 ->
  scipy.sort_by_x (samples smcd M) !! S j = Some p2 ->
  (fst p1 <= q <= fst p2)%Q ->
  exists predictor m,
    scipy.interp1d (fst <$> samples smcd M) (snd <$> samples smcd M)
    = Ok predictor /\
    predictor q = Finite m /\
    ((snd p1 <= snd p2)%Q -> (snd p1 <= m <= snd p2)%Q) /\
    ((snd p2 <= snd p1)%Q -> (snd p2 <= m <= snd p1)%Q).
Proof.
  intros Hd H1 H2 Hq.
  pose proof (sort_by_x_distinct _ Hd) as Hinc.
  set (sorted := scipy.sort_by_x (samples smcd M)) in *.
  assert (Hj : (S j < length sorted)%nat) by (apply lookup_lt_Some in H2; exact H2).
  assert (Hne : samples smcd M <> []).
  { intros E. unfold sorted in Hj. rewrite E in Hj. simpl in Hj. lia. }
  pose proof (increasing_adjacent (fst <$> sorted) j Hinc
                ltac:(rewrite length_fmap; exact Hj)) as Hadj.
  destruct (interp_between (fst <$> sorted) (snd <$> sorted) q j Hinc)
    as (m & Hm & Heq).
  { rewrite length_fmap. exact Hj. }
  { rewrite (nth_fst sorted j p1 H1), (nth_fst sorted (S j) p2 H2). exact Hq. }
  rewrite (nth_fst sorted j p1 H1), (nth_fst sorted (S j) p2 H2) in Hadj.
  rewrite (nth_fst sorted j p1 H1), (nth_fst sorted (S j) p2 H2),
    (nth_snd sorted j p1 H1), (nth_snd sorted (S j) p2 H2) in Heq.
  eexists. exists m. split; [exact (interp1d_samples _ Hne)|].
  split; [exact Hm|].
  destruct p1 as [x1 y1], p2 as [x2 y2]. unfold line in Heq. simpl in *.
  set (t := ((q - x1) / (x2 - x1))%Q).
  assert (Ht0 : (0 <= t)%Q) by (apply Qle_shift_div_l; lra).
  assert (Ht1 : (t <= 1)%Q) by (apply Qle_shift_div_r; lra).
  assert (Hmt : (m == y1 + (y2 - y1) * t)%Q).
  { rewrite Heq. unfold t. field. lra. }
  split; intros Hy.
  - assert (Ha : (0 <= (y2 - y1) * t)%Q) by (apply Qmult_le_0_compat; lra).
    assert (Hb : (t * (y2 - y1) <= 1 * (y2 - y1))%Q)
      by (apply Qmult_le_compat_r; lra).
    lra.
  - assert (Ha : (0 <= (y1 - y2) * t)%Q) by (apply Qmult_le_0_compat; lra).
    assert (Hb : (t * (y1 - y2) <= 1 * (y1 - y2))%Q)
      by (apply Qmult_le_compat_r; lra).
    lra.
Qed.

Lemma X16_witness :
  exists predictor m,
    scipy.interp1d (fst <$> samples sample_table 5) (snd <$> samples sample_table 5)
    = Ok predictor /\
    predictor 21%Q = Finite m /\
    ((2.5 <= 1.8)%Q -> (2.5 <= m <= 1.8)%Q) /\
    ((1.8 <= 2.5)%Q -> (1.8 <= m <= 2.5)%Q).
Proof.
  assert (Hd : distinct_x (samples sample_table 5)).
  { simpl. repeat split; try exact I; intros p' Hp';
      apply list_elem_of_In in Hp'; simpl in Hp';
      intuition (subst; simpl in *; try discriminate). }
  apply (X16_prediction_between_neighbours sample_table 5 21%Q 0%nat
           (20, 2.5)%Q (22, 1.8)%Q Hd);
    [reflexivity | reflexivity | split; vm_compute; discriminate].
Defined.

(** X17: the order of the rows in the table is of no consequence: when
    the samples of the number of bombs have pairwise different x-values,
    two analyses of one scenario on tables with the same rows in different
    orders return the same instance. *)
Theorem X17_row_order_is_irrelevant (smcd1 smcd2 : list row) (M K : Z) (bet : Q)
    (N : Z) (tr1 tr2 : list event) (self1 self2 : OutcomeAnalyzer) :
  smcd1 ≡ₚ smcd2 ->
  distinct_x (samples smcd1 M) ->
  fst (__init__ smcd1 M K bet N tr1) = Ok self1 ->
  fst (__init__ smcd2 M K bet N tr2) = Ok self2 ->
  self1 = self2.
Proof.
  intros Hp Hd H1 H2.
  assert (Hs : samples smcd1 M ≡ₚ samples smcd2 M).
  { unfold samples. rewrite Hp. reflexivity. }
  pose proof (sort_by_x_Permutation _ _ Hs Hd) as Hsort.
  revert H1 H2. unfold __init__, iobind, lift.
  destruct (calculate_success_failure_rates _) as [r|e] eqn:E; [|discriminate].
  assert (HM : num_bombs r = M).
  { unfold calculate_success_failure_rates in E.
    destruct (reduce _ _ _); simpl in E; [|discriminate].
    injection E as <-. reflexivity. }
  destruct (decide (M ∈ col_A <$> smcd1)) as [Hk|Hk].
  - rewrite (predict_multiplier_ok smcd1) by (rewrite HM; exact Hk).
    rewrite (predict_multiplier_ok smcd2) by (rewrite HM, <- Hp; exact Hk).
    rewrite HM, Hsort.
    destruct (calculate_expected_value _); simpl; [|discriminate].
    intros [= <-] [= <-]. reflexivity.
  - rewrite (predict_multiplier_raise smcd1) by (rewrite HM; exact Hk). discriminate.
Qed.

Lemma X17_witness :
  exists self1 self2,
    fst (__init__ sample_table 5 3 1 25 []) = Ok self1 /\
    fst (__init__ (reverse sample_table) 5 3 1 25 []) = Ok self2 /\
    self1 = self2.
Proof.
  assert (Hd : distinct_x (samples sample_table 5)).
  { simpl. repeat split; try exact I; intros p' Hp';
      apply list_elem_of_In in Hp'; simpl in Hp';
      intuition (subst; simpl in *; try discriminate). }
  assert (Hp : sample_table ≡ₚ reverse sample_table)
    by (symmetry; apply reverse_Permutation).
  eexists. eexists.
  assert (E1 : fst (__init__ sample_table 5 3 1 25 []) = Ok _)
    by (vm_compute; reflexivity).
  assert (E2 : fst (__init__ (reverse sample_table) 5 3 1 25 []) = Ok _)
    by (vm_compute; reflexivity).
  split; [exact E1|]. split; [exact E2|].
  exact (X17_row_order_is_irrelevant _ _ 5 3 1 25 [] [] _ _ Hp Hd E1 E2).
Defined.

(** X18: samples that lie on one straight line [y = a x + b] are
    predicted on that line at every query, inside and outside the sampled
    range; in particular equal multipliers are predicted unchanged. *)
Theorem X18_samples_on_a_line (smcd : list row) (M : Z) (a b : Q) :
  distinct_x (samples smcd M) ->
  (2 <= length (samples smcd M))%nat ->
  (forall x y, (x, y) ∈ samples smcd M -> (y == a * x + b)%Q) ->
  exists predictor,
    scipy.interp1d (fst <$> samples smcd M) (snd <$> samples smcd M)
    = Ok predictor /\
    forall q, float_eq (predictor q) (Finite (a * q + b)).
Proof.
  intros Hd Hlen Hline.
  pose proof (sort_by_x_distinct _ Hd) as Hinc.
  assert (Hne : samples smcd M <> [])
    by (intros E; rewrite E in Hlen; simpl in Hlen; lia).
  eexists. split; [exact (interp1d_samples _ Hne)|]. intros q.
  destruct (predictor_on_some_segment (scipy.sort_by_x (samples smcd M)) q Hinc
              ltac:(rewrite length_sort_by_x; exact Hlen))
    as (j & [x1 y1] & [x2 y2] & m & H1 & H2 & Hlt & -> & Hm).
  simpl in Hlt. simpl.
  assert (Hy1 : (y1 == a * x1 + b)%Q).
  { apply Hline, elem_of_sort_by_x, list_elem_of_lookup. exists j. exact H1. }
  assert (Hy2 : (y2 == a * x2 + b)%Q).
  { apply Hline, elem_of_sort_by_x, list_elem_of_lookup. exists (S j). exact H2. }
  rewrite Hm. unfold line. simpl. rewrite Hy1, Hy2. field. lra.
Qed.

Lemma X18_witness :
  exists predictor,
    scipy.interp1d (fst <$> samples sample_table 3) (snd <$> samples sample_table 3)
    = Ok predictor /\
    forall q, float_eq (predictor q) (Finite (- (1 # 5) * q + 5.9)).
Proof.
  apply (X18_samples_on_a_line sample_table 3 (- (1 # 5)) 5.9).
  - simpl. repeat split; try exact I; intros p' Hp';
      apply list_elem_of_In in Hp'; simpl in Hp';
      intuition (subst; simpl in *; try discriminate).
  - simpl. lia.
  - intros x y Hin. apply list_elem_of_In in Hin. simpl in Hin.
    destruct Hin as [[= <- <-]|[[= <- <-]|[]]]; reflexivity.
Defined.
